(** * Somber trading bot: the decision and position engine of [trading_bot.py]

    A shallow embedding of the [TradingBot] class: the moving-average
    strategy, the risk checks, order placement, protective exits, trade
    execution and the status report, followed by the properties of the
    engine.

    Modelling conventions.
    - Python floats are idealised as exact rationals ([Q]); comparisons are
      the boolean ones of [QArith] and equalities between computed amounts
      are stated up to [==].
    - Dates ([datetime.now().date()]) are day numbers in [Z].
    - Dictionaries are [gmap]s with string keys; [d.get(k, v)] is a lookup
      with a default, [d[k]] raises [KeyError] when the key is absent.
    - The exchange object is a record of answers; each answer is either a
      value or a raised exception.  Every call of [create_order] is appended
      to a log kept next to the bot, so that "which orders were sent" can be
      stated.
    - A Python exception is a value [Raise e]; [try ... except] is
      [try_except] (with state) or [rcatch] (without).
    - [asyncio.run(c)] gives the result of the coroutine [c], except that it
      raises [RuntimeError] when an event loop is already running in the
      calling thread; the field [loop_running] of the environment says which
      of the two holds.  The methods declared [async] contain no suspension
      point of their own and are run to completion by [await]. *)

From Stdlib Require Import QArith Qminmax Lqa ZArith String List Lia.
From stdpp Require Import gmap strings list fin_maps.

Local Open Scope Z_scope.
Local Open Scope string_scope.

(** ** Exceptions and results *)

Inductive exn : Type :=
| RuntimeError
| KeyError
| ValueError
| ZeroDivisionError
| TypeError
| IndexError
| ExchangeError.

Inductive result (A : Type) : Type :=
| Ok (a : A)
| Raise (e : exn).
Arguments Ok {A} a.
Arguments Raise {A} e.

Definition rbind {A B} (r : result A) (k : A -> result B) : result B :=
  match r with
  | Ok a => k a
  | Raise e => Raise e
  end.

Definition rcatch {A} (r : result A) (h : exn -> A) : A :=
  match r with
  | Ok a => a
  | Raise e => h e
  end.

Declare Scope result_scope.
Delimit Scope result_scope with result.
Notation "'let?' x ':=' r 'in' k" := (rbind r (fun x => k))
  (at level 10, x pattern, r at level 100, k at level 200) : result_scope.
Local Open Scope result_scope.

(** ** Rational helpers: Python comparisons, [min] and true division *)

Definition Qltb (x y : Q) : bool := negb (Qle_bool y x).
Definition Qgtb (x y : Q) : bool := Qltb y x.

(** [min(a, b)] of Python: [b] only when [b < a]. *)
Definition py_min (a b : Q) : Q := if Qltb b a then b else a.

(** [a / b] on floats raises [ZeroDivisionError] for a zero divisor. *)
Definition py_div (a b : Q) : result Q :=
  if Qeq_bool b 0 then Raise ZeroDivisionError else Ok (a / b)%Q.

(** [sum(xs)]: left to right, starting from 0. *)
Definition py_sum (xs : list Q) : Q := fold_left Qplus xs 0%Q.

(** [xs[-n:]]: the last [n] items; for [n = 0] Python's [xs[-0:]] is the
    whole list. *)
Definition py_last_n {A} (n : nat) (xs : list A) : list A :=
  match n with
  | O => xs
  | _ => skipn (length xs - n)%nat xs
  end.

(** ** Python values found in exchange answers *)

Inductive pyval : Type :=
| PyNone
| PyNum (q : Q).

(** Truth value of a number or [None]. *)
Definition py_truthy (v : pyval) : bool :=
  match v with
  | PyNone => false
  | PyNum q => negb (Qeq_bool q 0)
  end.

(** [v < b] for a float [b]: comparing [None] raises [TypeError]. *)
Definition py_lt (v : pyval) (b : Q) : result bool :=
  match v with
  | PyNone => Raise TypeError
  | PyNum q => Ok (Qltb q b)
  end.

(** [d.get(k, default)]. *)
Definition dict_get {V} (d : gmap string V) (k : string) (default : V) : V :=
  match d !! k with
  | Some v => v
  | None => default
  end.

(** Truth value of a dictionary: non-empty. *)
Definition dict_truthy {V} (d : gmap string V) : bool :=
  negb (Nat.eqb (size d) 0).

(** ** Data model *)

Inductive Signal : Type := buy | sell | hold.

Definition Signal_eqb (a b : Signal) : bool :=
  match a, b with
  | buy, buy | sell, sell | hold, hold => true
  | _, _ => false
  end.

Inductive OrderType : Type := market | stop_market | limit.

(** One call [exchange.create_order(symbol, type, side, amount, price, ...,
    params)]; [o_stop] is the [stopPrice] entry of the parameter
    dictionary. *)
Record OrderRequest : Type := mkRequest {
  o_symbol : string;
  o_type : OrderType;
  o_side : Signal;
  o_amount : Q;
  o_price : option Q;
  o_stop : option Q
}.

(** Dictionaries answered by the exchange. *)
Abbreviation Order := (gmap string string).
Abbreviation Ticker := (gmap string pyval).
Abbreviation Balance := (gmap string (gmap string pyval)).
Abbreviation Candle := (list Q).

(** The entry stored under [self.positions[symbol]]. *)
Record Position : Type := mkPosition {
  side : Signal;
  amount : Q;
  entry_price : Q;
  timestamp : string;
  order_id : option string
}.

(** The attributes of a [TradingBot] instance. *)
Record Bot : Type := mkBot {
  exchange_name : string;
  sandbox : bool;
  default_symbol : string;
  trade_amount : Q;
  stop_loss_percent : Q;
  take_profit_percent : Q;
  max_positions : Z;
  max_daily_loss : Q;
  min_balance : Q;
  is_trading : bool;
  positions : gmap string Position;
  daily_pnl : Q;
  last_reset_date : Z
}.

Definition set_is_trading (v : bool) (b : Bot) : Bot :=
  mkBot (exchange_name b) (sandbox b) (default_symbol b) (trade_amount b)
    (stop_loss_percent b) (take_profit_percent b) (max_positions b)
    (max_daily_loss b) (min_balance b) v (positions b) (daily_pnl b)
    (last_reset_date b).

Definition set_positions (v : gmap string Position) (b : Bot) : Bot :=
  mkBot (exchange_name b) (sandbox b) (default_symbol b) (trade_amount b)
    (stop_loss_percent b) (take_profit_percent b) (max_positions b)
    (max_daily_loss b) (min_balance b) (is_trading b) v (daily_pnl b)
    (last_reset_date b).

Definition set_daily_pnl (v : Q) (b : Bot) : Bot :=
  mkBot (exchange_name b) (sandbox b) (default_symbol b) (trade_amount b)
    (stop_loss_percent b) (take_profit_percent b) (max_positions b)
    (max_daily_loss b) (min_balance b) (is_trading b) (positions b) v
    (last_reset_date b).

Definition set_last_reset_date (v : Z) (b : Bot) : Bot :=
  mkBot (exchange_name b) (sandbox b) (default_symbol b) (trade_amount b)
    (stop_loss_percent b) (take_profit_percent b) (max_positions b)
    (max_daily_loss b) (min_balance b) (is_trading b) (positions b)
    (daily_pnl b) v.

(** The outside world of one call: the answers of the exchange, the clock,
    and whether an asyncio event loop is already running in the calling
    thread.  [create_order] may answer differently depending on the orders
    sent before. *)
Record Env : Type := mkEnv {
  fetch_balance : result Balance;
  fetch_ticker : string -> result Ticker;
  fetch_ohlcv : string -> string -> nat -> result (list Candle);
  create_order : list OrderRequest -> OrderRequest -> result Order;
  today : Z;
  now_iso : string;
  loop_running : bool
}.

(** The mutable state: the bot and the log of [create_order] calls, oldest
    last. *)
Record World : Type := mkWorld {
  bot : Bot;
  sent : list OrderRequest
}.

Definition with_bot (f : Bot -> Bot) (w : World) : World :=
  mkWorld (f (bot w)) (sent w).

(** ** The state-and-exception monad of the methods *)

Definition M (A : Type) : Type := World -> result A * World.

Definition ret {A} (a : A) : M A := fun w => (Ok a, w).
Definition throw {A} (e : exn) : M A := fun w => (Raise e, w).

Definition bind {A B} (m : M A) (k : A -> M B) : M B :=
  fun w =>
    match m w with
    | (Ok a, w') => k a w'
    | (Raise e, w') => (Raise e, w')
    end.

(** [try: m except Exception: h]; the state changes made before the
    exception stay. *)
Definition try_except {A} (m : M A) (h : exn -> M A) : M A :=
  fun w =>
    match m w with
    | (Ok a, w') => (Ok a, w')
    | (Raise e, w') => h e w'
    end.

Definition lift {A} (r : result A) : M A := fun w => (r, w).
Definition get_self : M Bot := fun w => (Ok (bot w), w).
Definition modify_self (f : Bot -> Bot) : M unit :=
  fun w => (Ok tt, with_bot f w).

Declare Scope method_scope.
Delimit Scope method_scope with method.
Notation "'do' x '<-' m ';' k" := (bind m (fun x => k))
  (at level 10, x pattern, m at level 100, k at level 200) : method_scope.
Notation "m ';;' k" := (bind m (fun _ => k))
  (at level 100, k at level 200, right associativity) : method_scope.

(** [asyncio.run(coro)]: runs the coroutine to completion, but raises
    [RuntimeError] without running it when an event loop is already running
    in the thread. *)
Definition asyncio_run {A} (env : Env) (coro : result A) : result A :=
  if loop_running env then Raise RuntimeError else coro.

(** ** Market data *)

(** [get_balance]: the balance, or [{}] when the fetch raises. *)
Definition get_balance (env : Env) : Balance :=
  rcatch (fetch_balance env) (fun _ => ∅).

(** [get_ticker]: the ticker, or [{}] when the fetch raises. *)
Definition get_ticker (env : Env) (symbol : string) : Ticker :=
  rcatch (fetch_ticker env symbol) (fun _ => ∅).

(** [get_ohlcv]: the candles, or [[]] when the fetch raises. *)
Definition get_ohlcv (env : Env) (symbol timeframe : string) (limit : nat)
  : list Candle :=
  rcatch (fetch_ohlcv env symbol timeframe limit) (fun _ => []).

(** ** Signal evaluation *)

(** [calculate_sma(prices, period)]: [None] on a short history, else the
    mean of the last [period] prices. *)
Definition calculate_sma (prices : list Q) (period : nat) : result (option Q) :=
  if (length prices <? period)%nat then Ok None
  else
    let? mean := py_div (py_sum (py_last_n period prices))
                        (inject_Z (Z.of_nat period)) in
    Ok (Some mean).

(** [xs[i]] on a list. *)
Definition py_index {A} (xs : list A) (i : nat) : result A :=
  match xs !! i with
  | Some x => Ok x
  | None => Raise IndexError
  end.

(** [xs[-1]]. *)
Definition py_last {A} (xs : list A) : result A :=
  match last xs with
  | Some x => Ok x
  | None => Raise IndexError
  end.

(** [[candle[4] for candle in ohlcv]]. *)
Fixpoint closing_prices (ohlcv : list Candle) : result (list Q) :=
  match ohlcv with
  | [] => Ok []
  | candle :: rest =>
      let? c := py_index candle 4 in
      let? cs := closing_prices rest in
      Ok (c :: cs)
  end.

Definition is_nil {A} (xs : list A) : bool :=
  match xs with
  | [] => true
  | _ => false
  end.

(** [simple_strategy(symbol)]: the moving-average crossover; any exception
    inside gives [('hold', 0.0)]. *)
Definition simple_strategy (env : Env) (symbol : string) : Signal * Q :=
  rcatch
    (let? ohlcv := asyncio_run env (Ok (get_ohlcv env symbol "1h" 50)) in
     if is_nil ohlcv then Ok (hold, 0%Q)
     else
       let? closes := closing_prices ohlcv in
       let? sma_20 := calculate_sma closes 20 in
       let? sma_50 := calculate_sma closes 50 in
       match sma_20, sma_50 with
       | Some sma_20, Some sma_50 =>
           let? current_price := py_last closes in
           if Qgtb sma_20 sma_50 && Qgtb current_price sma_20 then
             let? ratio := py_div (sma_20 - sma_50)%Q sma_50 in
             Ok (buy, py_min (ratio * 100)%Q 1%Q)
           else if Qltb sma_20 sma_50 && Qltb current_price sma_20 then
             let? ratio := py_div (sma_50 - sma_20)%Q sma_20 in
             Ok (sell, py_min (ratio * 100)%Q 1%Q)
           else Ok (hold, 0%Q)
       | _, _ => Ok (hold, 0%Q)
       end)
    (fun _ => (hold, 0%Q)).

(** ** Orders *)

(** One call of [self.exchange.create_order]: the request is logged whether
    or not the exchange raises. *)
Definition call_create_order (env : Env) (req : OrderRequest) : M Order :=
  fun w => (create_order env (sent w) req, mkWorld (bot w) (req :: sent w)).

(** [d[k]]. *)
Definition py_getitem {V} (d : gmap string V) (k : string) : result V :=
  match d !! k with
  | Some v => Ok v
  | None => Raise KeyError
  end.

Local Open Scope method_scope.

(** [place_order(symbol, side, amount, order_type)]: the order, or [{}] on
    any exception (a side other than buy or sell, a failing exchange call, an
    answer without ['id']). *)
Definition place_order (env : Env) (symbol : string) (sd : Signal) (amt : Q)
    (order_type : OrderType) : M Order :=
  try_except
    (match sd with
     | hold => throw ValueError
     | _ =>
         do order <- call_create_order env
                       (mkRequest symbol order_type sd amt None None);
         do _ <- lift (py_getitem order "id");
         ret order
     end)
    (fun _ => ret ∅).

(** [set_stop_loss_take_profit(symbol, side, entry_price, amount)]: the stop
    order first, then the take-profit order; [(None, None)] on any
    exception. *)
Definition set_stop_loss_take_profit (env : Env) (symbol : string)
    (sd : Signal) (entry : Q) (amt : Q) : M (option Order * option Order) :=
  do self <- get_self;
  try_except
    (match sd with
     | buy =>
         let stop_loss_price :=
           (entry * (1 - stop_loss_percent self / 100))%Q in
         let take_profit_price :=
           (entry * (1 + take_profit_percent self / 100))%Q in
         do stop_order <- call_create_order env
             (mkRequest symbol stop_market sell amt None (Some stop_loss_price));
         do tp_order <- call_create_order env
             (mkRequest symbol limit sell amt (Some take_profit_price) None);
         ret (Some stop_order, Some tp_order)
     | _ =>
         let stop_loss_price :=
           (entry * (1 + stop_loss_percent self / 100))%Q in
         let take_profit_price :=
           (entry * (1 - take_profit_percent self / 100))%Q in
         do stop_order <- call_create_order env
             (mkRequest symbol stop_market buy amt None (Some stop_loss_price));
         do tp_order <- call_create_order env
             (mkRequest symbol limit buy amt (Some take_profit_price) None);
         ret (Some stop_order, Some tp_order)
     end)
    (fun _ => ret (None, None)).

(** ** Risk management *)

(** [check_risk_management()]: daily reset, then the loss, balance and
    position-count checks in this order. *)
Definition check_risk_management (env : Env) : M bool :=
  let current_date := today env in
  do self <- get_self;
  do _ <- (if current_date >? last_reset_date self
           then modify_self (fun b =>
                  set_last_reset_date current_date (set_daily_pnl 0%Q b))
           else ret tt);
  do self <- get_self;
  if Qle_bool (daily_pnl self) (- max_daily_loss self)%Q then ret false
  else
    do too_low <- try_except
        (lift (let? balance := asyncio_run env (Ok (get_balance env)) in
               let usdt_balance :=
                 dict_get (dict_get balance "USDT" ∅) "free" (PyNum 0%Q) in
               py_lt usdt_balance (min_balance self)))
        (fun _ => ret false);
    if too_low then ret false
    else if Z.of_nat (size (positions self)) >=? max_positions self
         then ret false
         else ret true.

(** ** Trade execution *)

(** [execute_trade(symbol)]: the entry order, or [None] when no trade is
    made. *)
Definition execute_trade (env : Env) (symbol : string) : M (option Order) :=
  do allowed <- check_risk_management env;
  if negb allowed then ret None
  else
    let '(signal, confidence) := simple_strategy env symbol in
    if Signal_eqb signal hold || Qltb confidence (3 # 10) then ret None
    else
      try_except
        (let ticker := get_ticker env symbol in
         match dict_get ticker "last" (PyNum 0%Q) with
         | PyNone => ret None
         | PyNum current_price =>
             if Qeq_bool current_price 0 then ret None
             else
               do self <- get_self;
               do amt <- lift (py_div (trade_amount self) current_price);
               do order <- place_order env symbol signal amt market;
               if dict_truthy order then
                 do _ <- set_stop_loss_take_profit env symbol signal
                           current_price amt;
                 do _ <- modify_self (fun b =>
                     set_positions
                       (<[symbol := mkPosition signal amt current_price
                                      (now_iso env) (order !! "id")]>
                          (positions b)) b);
                 ret (Some order)
               else ret None
         end)
        (fun _ => ret None).

(** ** Control surface *)

Definition start_trading : M unit := modify_self (set_is_trading true).
Definition stop_trading : M unit := modify_self (set_is_trading false).

(** The dictionary returned by [get_status]. *)
Record Status : Type := mkStatus {
  status_is_trading : bool;
  status_positions : nat;
  status_daily_pnl : Q;
  status_exchange : string;
  status_sandbox : bool
}.

Definition get_status : M Status :=
  do self <- get_self;
  ret (mkStatus (is_trading self) (size (positions self)) (daily_pnl self)
         (exchange_name self) (sandbox self)).

(** ** Auxiliary definitions used in the statements *)

(** The clamp of the specification's wording. *)
Definition clamp (x lo hi : Q) : Q := Qmax lo (Qmin x hi).

(** The inputs used in the examples: a bot with the default settings, fifty
    candles closing at 100 except the last one at 120, and an exchange that
    accepts every order. *)
Definition example_bot : Bot :=
  mkBot "binance" true "BTC/USDT" 10 2 5 3 100 50 false ∅ 0 100.

Definition candle_closing (c : Q) : Candle := [0; c; c; c; c; 1000]%Q.

Definition rising_history : list Candle :=
  repeat (candle_closing 100) 49 ++ [candle_closing 120].

Definition example_env : Env :=
  mkEnv (Ok {[ "USDT" := {[ "free" := PyNum 1000 ]} ]})
        (fun _ => Ok {[ "last" := PyNum 100 ]})
        (fun _ _ _ => Ok rising_history)
        (fun _ _ => Ok {[ "id" := "42" ]})
        100 "2024-01-01T00:00:00" false.

Definition example_world : World := mkWorld example_bot [].


(** The three checks of [check_risk_management], read off its body, and the
    daily reset that precedes them. *)
Definition roll_over (env : Env) (b : Bot) : Bot :=
  if today env >? last_reset_date b
  then set_last_reset_date (today env) (set_daily_pnl 0%Q b)
  else b.

Definition loss_limit_reached (b : Bot) : bool :=
  Qle_bool (daily_pnl b) (- max_daily_loss b)%Q.

Definition balance_too_low (env : Env) (b : Bot) : bool :=
  rcatch
    (let? balance := asyncio_run env (Ok (get_balance env)) in
     py_lt (dict_get (dict_get balance "USDT" ∅) "free" (PyNum 0%Q))
           (min_balance b))
    (fun _ => false).

Definition positions_full (b : Bot) : bool :=
  Z.of_nat (size (positions b)) >=? max_positions b.

(** The example exchange with a failing balance fetch. *)
Definition balance_failure_env : Env :=
  mkEnv (Raise ExchangeError) (fetch_ticker example_env)
        (fetch_ohlcv example_env) (create_order example_env)
        (today example_env) (now_iso example_env) false.

(** A bot that ended the previous day (day 99) at the loss limit. *)
Definition loss_limit_world : World :=
  mkWorld (set_last_reset_date 99 (set_daily_pnl (-100)%Q example_bot)) [].

Definition risk_allows (env : Env) (b : Bot) : bool :=
  negb (loss_limit_reached b || balance_too_low env b || positions_full b).

(** What [place_order] makes of the answer of the exchange: the order when
    it carries an ['id'], else [{}]. *)
Definition placed (answer : result Order) : Order :=
  match answer with
  | Ok order =>
      match order !! "id" with
      | Some _ => order
      | None => ∅
      end
  | Raise _ => ∅
  end.

(** The entry order of [execute_trade] and the two exit orders of
    [set_stop_loss_take_profit]. *)
Definition entry_request (symbol : string) (sd : Signal) (amt : Q)
  : OrderRequest :=
  mkRequest symbol market sd amt None None.

Definition exit_side (sd : Signal) : Signal :=
  match sd with
  | buy => sell
  | _ => buy
  end.

Definition stop_request (b : Bot) (symbol : string) (sd : Signal)
    (entry amt : Q) : OrderRequest :=
  mkRequest symbol stop_market (exit_side sd) amt None
    (Some match sd with
          | buy => (entry * (1 - stop_loss_percent b / 100))%Q
          | _ => (entry * (1 + stop_loss_percent b / 100))%Q
          end).

Definition take_profit_request (b : Bot) (symbol : string) (sd : Signal)
    (entry amt : Q) : OrderRequest :=
  mkRequest symbol limit (exit_side sd) amt
    (Some match sd with
          | buy => (entry * (1 + take_profit_percent b / 100))%Q
          | _ => (entry * (1 - take_profit_percent b / 100))%Q
          end)
    None.

(** The log after [set_stop_loss_take_profit]: the take-profit order is
    sent only when the stop order was accepted. *)
Definition exit_log (env : Env) (b : Bot) (symbol : string) (sd : Signal)
    (entry amt : Q) (log : list OrderRequest) : list OrderRequest :=
  match create_order env log (stop_request b symbol sd entry amt) with
  | Ok _ =>
      take_profit_request b symbol sd entry amt
        :: stop_request b symbol sd entry amt :: log
  | Raise _ => stop_request b symbol sd entry amt :: log
  end.

(** [ticker.get('last', 0)] on the ticker of [get_ticker]. *)
Definition quoted_price (env : Env) (symbol : string) : pyval :=
  dict_get (get_ticker env symbol) "last" (PyNum 0%Q).

(** The exit-order step fails when the stop order raises, or when the
    take-profit order sent after it raises. *)
Definition exits_fail (env : Env) (log : list OrderRequest)
    (stop tp : OrderRequest) : Prop :=
  (exists e, create_order env log stop = Raise e) \/
  (exists e, create_order env (stop :: log) tp = Raise e).

(** The methods that act on a bot, and their effect on the state. *)
Inductive operation : Type :=
| op_check_risk_management
| op_execute_trade (symbol : string)
| op_place_order (symbol : string) (sd : Signal) (amt : Q) (ty : OrderType)
| op_set_stop_loss_take_profit (symbol : string) (sd : Signal) (entry amt : Q)
| op_start_trading
| op_stop_trading
| op_get_status.

Definition run (env : Env) (op : operation) (w : World) : World :=
  match op with
  | op_check_risk_management => snd (check_risk_management env w)
  | op_execute_trade symbol => snd (execute_trade env symbol w)
  | op_place_order symbol sd amt ty => snd (place_order env symbol sd amt ty w)
  | op_set_stop_loss_take_profit symbol sd entry amt =>
      snd (set_stop_loss_take_profit env symbol sd entry amt w)
  | op_start_trading => snd (start_trading w)
  | op_stop_trading => snd (stop_trading w)
  | op_get_status => snd (get_status w)
  end.

(** A history: each operation runs against the exchange and clock of its
    own moment. *)
Fixpoint run_all (steps : list (Env * operation)) (w : World) : World :=
  match steps with
  | [] => w
  | (env, op) :: rest => run_all rest (run env op w)
  end.

(** The ledger invariant of the data model: one entry per instrument, with
    a positive quantity and a positive entry price. *)
Definition ledger_invariant (b : Bot) : Prop :=
  NoDup ((map_to_list (positions b)).*1) /\
  forall symbol p, positions b !! symbol = Some p ->
    (0 < amount p)%Q /\ (0 < entry_price p)%Q.

(** The exchange never quotes a negative last price. *)
Definition quotes_nonnegative (env : Env) : Prop :=
  forall symbol q, quoted_price env symbol = PyNum q -> (0 <= q)%Q.

(** The example exchange quoting a last price of -1. *)
Definition negative_quote_env : Env :=
  mkEnv (fetch_balance example_env)
        (fun _ => Ok {[ "last" := PyNum (-1) ]})
        (fetch_ohlcv example_env) (create_order example_env)
        (today example_env) (now_iso example_env) false.

(** The example exchange refusing every order. *)
Definition entry_failure_env : Env :=
  mkEnv (fetch_balance example_env) (fetch_ticker example_env)
        (fetch_ohlcv example_env) (fun _ _ => Raise ExchangeError)
        (today example_env) (now_iso example_env) false.

(** The example exchange accepting market orders only. *)
Definition exit_failure_env : Env :=
  mkEnv (fetch_balance example_env) (fetch_ticker example_env)
        (fetch_ohlcv example_env)
        (fun _ req =>
           match o_type req with
           | market => Ok {[ "id" := "42" ]}
           | _ => Raise ExchangeError
           end)
        (today example_env) (now_iso example_env) false.

(** A bot already holding a short position on BTC/USDT. *)
Definition short_position : Position :=
  mkPosition sell 1 50 "2023-12-31T00:00:00" (Some "7").

Definition short_position_world : World :=
  mkWorld (set_positions {[ "BTC/USDT" := short_position ]} example_bot) [].

(** The example exchange with a failing ticker fetch. *)
Definition ticker_failure_env : Env :=
  mkEnv (fetch_balance example_env) (fun _ => Raise ExchangeError)
        (fetch_ohlcv example_env) (create_order example_env)
        (today example_env) (now_iso example_env) false.

(** A bot last reset on day 99, with a daily PnL of -50 (above the loss
    limit of -100), met on day 100. *)
Definition reset_due_world : World :=
  mkWorld (set_last_reset_date 99 (set_daily_pnl (-50)%Q example_bot)) [].

From Stdlib Require Import Ascii.

(** ** Further definitions used in the statements *)

(** Two bots with the same settings (everything but the trading flag, the
    ledger, the daily PnL and the reset date). *)
Definition same_settings (b b' : Bot) : Prop :=
  exchange_name b' = exchange_name b /\
  sandbox b' = sandbox b /\
  default_symbol b' = default_symbol b /\
  trade_amount b' = trade_amount b /\
  stop_loss_percent b' = stop_loss_percent b /\
  take_profit_percent b' = take_profit_percent b /\
  max_positions b' = max_positions b /\
  max_daily_loss b' = max_daily_loss b /\
  min_balance b' = min_balance b.

(** The example exchange answering a balance without USDT, and one whose
    free USDT balance is [None]. *)
Definition no_usdt_env : Env :=
  mkEnv (Ok {[ "BTC" := {[ "free" := PyNum 1 ]} ]})
        (fetch_ticker example_env) (fetch_ohlcv example_env)
        (create_order example_env) (today example_env)
        (now_iso example_env) false.

Definition none_free_env : Env :=
  mkEnv (Ok {[ "USDT" := {[ "free" := PyNone ]} ]})
        (fetch_ticker example_env) (fetch_ohlcv example_env)
        (create_order example_env) (today example_env)
        (now_iso example_env) false.

(** An exit order on the protective side of the entry price: for a long
    entry the stop lies below and the take-profit above; for a short entry
    (every side other than buy) the other way round. *)
Definition protective (sd : Signal) (entry : Q) (req : OrderRequest) : Prop :=
  match o_type req with
  | stop_market =>
      match o_stop req with
      | Some s => match sd with
                  | buy => (s < entry)%Q
                  | _ => (entry < s)%Q
                  end
      | None => False
      end
  | limit =>
      match o_price req with
      | Some t => match sd with
                  | buy => (entry < t)%Q
                  | _ => (t < entry)%Q
                  end
      | None => False
      end
  | market => False
  end.

(** ** Portfolio summary *)

(** [v > b] for a number [b]: comparing [None] raises [TypeError]. *)
Definition py_gt (v : pyval) (b : Q) : result bool :=
  match v with
  | PyNone => Raise TypeError
  | PyNum q => Ok (Qltb b q)
  end.

(** [a + v] and [v1 * v2]: arithmetic on [None] raises [TypeError]. *)
Definition py_add (a : Q) (v : pyval) : result Q :=
  match v with
  | PyNone => Raise TypeError
  | PyNum q => Ok (a + q)%Q
  end.

Definition py_mul (v1 v2 : pyval) : result pyval :=
  match v1, v2 with
  | PyNum a, PyNum b => Ok (PyNum (a * b))
  | _, _ => Raise TypeError
  end.

(** One round of the loop of [get_portfolio_summary] over
    [balance.items()]: the running total after the entry
    [(currency, info)].  USDT counts at face value, any other currency at
    its last price against USDT; an exception while pricing is passed
    over. *)
Definition add_asset (env : Env) (total_value : Q) (currency : string)
    (info : gmap string pyval) : result Q :=
  if String.eqb currency "info" then Ok total_value
  else
    let? positive := py_gt (dict_get info "total" (PyNum 0%Q)) 0 in
    if positive then
      if String.eqb currency "USDT" then
        let? total := py_getitem info "total" in
        py_add total_value total
      else
        Ok (rcatch
              (let ticker := get_ticker env (currency ++ "/USDT") in
               let price := dict_get ticker "last" (PyNum 0%Q) in
               let? total := py_getitem info "total" in
               let? value := py_mul total price in
               py_add total_value value)
              (fun _ => total_value))
    else Ok total_value.

(** The loop itself, over the entries in the order given. *)
Fixpoint sum_assets (env : Env) (items : list (string * gmap string pyval))
    (total_value : Q) : result Q :=
  match items with
  | [] => Ok total_value
  | (currency, info) :: rest =>
      let? next := add_asset env total_value currency info in
      sum_assets env rest next
  end.

(** The dictionary returned by [get_portfolio_summary]. *)
Record Portfolio : Type := mkPortfolio {
  total_value : Q;
  portfolio_positions : gmap string Position;
  portfolio_balance : Balance
}.

(** [get_portfolio_summary()]: the summary, or [None] for the [{}] returned
    on an exception.  The method reads the bot and the exchange and writes
    nothing.  The entries of the balance are visited in the order of
    [map_to_list]. *)
Definition get_portfolio_summary (env : Env) (self : Bot) : option Portfolio :=
  rcatch
    (let balance := get_balance env in
     let? total := sum_assets env (map_to_list balance) 0%Q in
     Ok (Some (mkPortfolio total (positions self) balance)))
    (fun _ => None).

(** What one entry of the balance does to the running total: nothing
    ([None]), an addition, or an exception. *)
Definition asset_effect (env : Env) (currency : string)
    (info : gmap string pyval) : result (option Q) :=
  if String.eqb currency "info" then Ok None
  else
    match dict_get info "total" (PyNum 0%Q) with
    | PyNone => Raise TypeError
    | PyNum total =>
        if Qltb 0 total then
          if String.eqb currency "USDT" then Ok (Some total)
          else
            match quoted_price env (currency ++ "/USDT") with
            | PyNone => Ok None
            | PyNum price => Ok (Some (total * price)%Q)
            end
        else Ok None
    end.

(** ** The scheduled check of [main.py] *)

(** A notification the scheduler hands to the Telegram side.  The two
    notification coroutines catch every exception of their own, so they are
    recorded as events. *)
Inductive Notice : Type :=
| AutoTradeNotice (order : Order)
| ErrorNotice.

(** The state of [SomberTradingBot]: the trading bot with its order log,
    and the notifications handed over so far (latest first). *)
Record System : Type := mkSystem {
  world : World;
  notices : list Notice
}.

(** The same surroundings, seen from inside a running event loop. *)
Definition inside_loop (env : Env) : Env :=
  mkEnv (fetch_balance env) (fetch_ticker env) (fetch_ohlcv env)
        (create_order env) (today env) (now_iso env) true.

(** [asyncio.run(method(...))]: raises [RuntimeError] without running the
    coroutine when a loop is already running in the thread, else runs it to
    completion inside a fresh loop. *)
Definition asyncio_run_method {A} (env : Env) (method : Env -> M A) : M A :=
  fun w =>
    if loop_running env then (Raise RuntimeError, w)
    else method (inside_loop env) w.

(** [asyncio.run] of a notification coroutine. *)
Definition asyncio_run_notice (env : Env) (n : Notice) (s : System)
  : result unit * System :=
  if loop_running env then (Raise RuntimeError, s)
  else (Ok tt, mkSystem (world s) (n :: notices s)).

(** Truth value of [self.telegram_bot.chat_id]. *)
Definition chat_configured (chat_id : option string) : bool :=
  match chat_id with
  | Some s => negb (String.eqb s "")
  | None => false
  end.

(** Truth value of the result of [execute_trade]. *)
Definition order_truthy (result : option Order) : bool :=
  match result with
  | Some order => dict_truthy order
  | None => false
  end.

(** [_periodic_trading_check()]: nothing when trading is stopped; else one
    [execute_trade] on the default symbol, a notification when it returned
    an order and a chat is configured, and an error notification when the
    body raised. *)
Definition _periodic_trading_check (env : Env) (chat_id : option string)
    (s : System) : result unit * System :=
  if negb (is_trading (bot (world s))) then (Ok tt, s)
  else
    let body :=
      match asyncio_run_method env
              (fun env' => execute_trade env' (default_symbol (bot (world s))))
              (world s) with
      | (Raise e, w') => (Raise e, mkSystem w' (notices s))
      | (Ok result, w') =>
          let s' := mkSystem w' (notices s) in
          if order_truthy result then
            if chat_configured chat_id then
              match result with
              | Some order => asyncio_run_notice env (AutoTradeNotice order) s'
              | None => (Ok tt, s')
              end
            else (Ok tt, s')
          else (Ok tt, s')
      end in
    match body with
    | (Ok tt, s') => (Ok tt, s')
    | (Raise _, s') => asyncio_run_notice env ErrorNotice s'
    end.

(** ** Configuration ([config.py]) *)

(** The process environment and [os.getenv(key, default)]. *)
Abbreviation Environ := (gmap string string).

Definition os_getenv (environ : Environ) (key : string)
    (default : option string) : option string :=
  match environ !! key with
  | Some value => Some value
  | None => default
  end.

(** Truth value of a string or [None]. *)
Definition str_truthy (value : option string) : bool :=
  match value with
  | Some s => negb (String.eqb s "")
  | None => false
  end.

(** [Config._get_env_var(key, required, default)]. *)
Definition _get_env_var (environ : Environ) (key : string) (required : bool)
    (default : option string) : result (option string) :=
  let value := os_getenv environ key default in
  if required && negb (str_truthy value) then Raise ValueError
  else Ok value.

(** [c in s] for a one-character string [c]. *)
Fixpoint str_contains (c : ascii) (s : string) : bool :=
  match s with
  | EmptyString => false
  | String a rest => if Ascii.eqb a c then true else str_contains c rest
  end.

(** The attributes of a [Config] instance. *)
Record Config : Type := mkConfig {
  somnia_api_url : option string;
  telegram_bot_token : option string;
  debug : bool;
  log_level : string
}.

(** The list [errors] built by [Config.validate]. *)
Definition validation_errors (self : Config) : list string :=
  (match somnia_api_url self with
   | Some url =>
       if String.eqb url "" then ["SOMNIA_API_URL is required"]
       else if String.prefix "http://" url || String.prefix "https://" url
            then []
            else ["SOMNIA_API_URL must be a valid URL"]
   | None => ["SOMNIA_API_URL is required"]
   end ++
   match telegram_bot_token self with
   | Some token =>
       if String.eqb token "" then ["TELEGRAM_BOT_TOKEN is required"]
       else if str_contains ":"%char token then []
            else ["TELEGRAM_BOT_TOKEN appears to be invalid format"]
   | None => ["TELEGRAM_BOT_TOKEN is required"]
   end)%list.

(** [Config.validate()]: raises [ValueError] when [errors] is not empty. *)
Definition validate (self : Config) : result unit :=
  if is_nil (validation_errors self) then Ok tt else Raise ValueError.

(** Further example surroundings: an exchange without price history, one
    whose balance holds a total of [None], and a started bot. *)
Definition no_history_env : Env :=
  mkEnv (fetch_balance example_env) (fetch_ticker example_env)
        (fun _ _ _ => Raise ExchangeError) (create_order example_env)
        (today example_env) (now_iso example_env) false.

Definition none_total_env : Env :=
  mkEnv (Ok {[ "ETH" := {[ "total" := PyNone ]} ]})
        (fetch_ticker example_env) (fetch_ohlcv example_env)
        (create_order example_env) (today example_env)
        (now_iso example_env) false.

Definition started_system : System :=
  mkSystem (with_bot (set_is_trading true) example_world) [].
(** * Properties *)

(** ** Facts about the rational helpers *)

Lemma Qltb_lt (x y : Q) : Qltb x y = true <-> (x < y)%Q.
Proof.
  unfold Qltb. rewrite negb_true_iff. split.
  - intros H. apply Qnot_le_lt. intros Hle.
    apply Qle_bool_iff in Hle. congruence.
  - intros H. destruct (Qle_bool y x) eqn:E; [|reflexivity].
    apply Qle_bool_iff in E. exfalso. apply (Qlt_not_le _ _ H E).
Qed.

Lemma Qltb_ge (x y : Q) : Qltb x y = false <-> (y <= x)%Q.
Proof.
  unfold Qltb. rewrite negb_false_iff. apply Qle_bool_iff.
Qed.

Lemma Qeq_bool_false (x y : Q) : Qeq_bool x y = false <-> ~ (x == y)%Q.
Proof.
  split.
  - intros H Heq. apply Qeq_bool_iff in Heq. congruence.
  - intros H. destruct (Qeq_bool x y) eqn:E; [|reflexivity].
    apply Qeq_bool_iff in E. contradiction.
Qed.

Lemma py_min_Qmin (a b : Q) : (py_min a b == Qmin a b)%Q.
Proof.
  unfold py_min. destruct (Qltb b a) eqn:E.
  - apply Qltb_lt in E. symmetry. apply Q.min_r. apply Qlt_le_weak, E.
  - apply Qltb_ge in E. symmetry. apply Q.min_l, E.
Qed.

Lemma py_div_ok (a b : Q) : ~ (b == 0)%Q -> py_div a b = Ok (a / b)%Q.
Proof.
  intros H. unfold py_div. apply Qeq_bool_false in H. now rewrite H.
Qed.

Lemma py_div_zero (a b : Q) : (b == 0)%Q -> py_div a b = Raise ZeroDivisionError.
Proof.
  intros H. unfold py_div. apply Qeq_bool_iff in H. now rewrite H.
Qed.

(** ** Signal evaluation *)

Lemma calculate_sma_Some_length (prices : list Q) (period : nat) (m : Q) :
  calculate_sma prices period = Ok (Some m) -> (period <= length prices)%nat.
Proof.
  unfold calculate_sma. destruct (length prices <? period)%nat eqn:E.
  - discriminate.
  - intros _. apply Nat.ltb_ge in E. exact E.
Qed.

Lemma closing_prices_length (ohlcv : list Candle) (closes : list Q) :
  closing_prices ohlcv = Ok closes -> length closes = length ohlcv.
Proof.
  revert closes. induction ohlcv as [|c rest IH]; intros closes H; simpl in H.
  - now inversion H.
  - destruct (py_index c 4) as [x|e]; simpl in H; [|discriminate].
    destruct (closing_prices rest) as [cs|e]; simpl in H; [|discriminate].
    inversion H; subst. simpl. f_equal. now apply IH.
Qed.

Section Strategy.
Variables (env : Env) (symbol : string).
Variables (ohlcv : list Candle) (closes : list Q).
Variables (short_sma long_sma latest : Q).
Hypothesis Hloop : loop_running env = false.
Hypothesis Hfetch : fetch_ohlcv env symbol "1h" 50 = Ok ohlcv.
Hypothesis Hcloses : closing_prices ohlcv = Ok closes.
Hypothesis Hshort : calculate_sma closes 20 = Ok (Some short_sma).
Hypothesis Hlong : calculate_sma closes 50 = Ok (Some long_sma).
Hypothesis Hlatest : last closes = Some latest.

(** With the two averages and the latest close at hand, the strategy is
    its decision on them. *)
Lemma simple_strategy_unfold :
  simple_strategy env symbol =
  rcatch
    (if Qgtb short_sma long_sma && Qgtb latest short_sma then
       let? ratio := py_div (short_sma - long_sma)%Q long_sma in
       Ok (buy, py_min (ratio * 100)%Q 1%Q)
     else if Qltb short_sma long_sma && Qltb latest short_sma then
       let? ratio := py_div (long_sma - short_sma)%Q short_sma in
       Ok (sell, py_min (ratio * 100)%Q 1%Q)
     else Ok (hold, 0%Q))
    (fun _ => (hold, 0%Q)).
Proof using Hloop Hfetch Hcloses Hshort Hlong Hlatest.
  unfold simple_strategy, asyncio_run, get_ohlcv.
  rewrite Hloop, Hfetch. cbn [rcatch rbind].
  assert (Hnil : is_nil ohlcv = false).
  { apply calculate_sma_Some_length in Hlong.
    apply closing_prices_length in Hcloses.
    destruct ohlcv; [simpl in *; lia | reflexivity]. }
  rewrite Hnil, Hcloses. cbn [rbind]. rewrite Hshort, Hlong. cbn [rbind].
  unfold py_last. rewrite Hlatest. reflexivity.
Qed.
End Strategy.

(** C3, as amended.  With the 20- and 50-period averages [short_sma] and
    [long_sma] of the fetched closes and the latest close at hand: when
    short > long, latest > short and long is not zero the strategy returns
    [buy] with confidence min(100 * (short - long) / long, 1), which for a
    positive long average is clamp(100 * (short - long) / long, 0, 1); when
    short < long, latest < short and short is not zero it returns [sell]
    with confidence min(100 * (long - short) / short, 1), for a positive
    short average the clamp of the same; when neither pair of comparisons
    holds it returns [hold] with confidence 0; and a zero divisor in either
    branch gives [hold] with confidence 0. *)
Theorem simple_strategy_crossover
    (env : Env) (symbol : string) (ohlcv : list Candle) (closes : list Q)
    (short_sma long_sma latest : Q)
    (Hloop : loop_running env = false)
    (Hfetch : fetch_ohlcv env symbol "1h" 50 = Ok ohlcv)
    (Hcloses : closing_prices ohlcv = Ok closes)
    (Hshort : calculate_sma closes 20 = Ok (Some short_sma))
    (Hlong : calculate_sma closes 50 = Ok (Some long_sma))
    (Hlatest : last closes = Some latest) :
  let r := simple_strategy env symbol in
  let up := (100 * ((short_sma - long_sma) / long_sma))%Q in
  let down := (100 * ((long_sma - short_sma) / short_sma))%Q in
  ((long_sma < short_sma)%Q -> (short_sma < latest)%Q ->
     ~ (long_sma == 0)%Q ->
     fst r = buy /\ (snd r == Qmin up 1)%Q /\
     ((0 < long_sma)%Q -> (snd r == clamp up 0 1)%Q)) /\
  ((short_sma < long_sma)%Q -> (latest < short_sma)%Q ->
     ~ (short_sma == 0)%Q ->
     fst r = sell /\ (snd r == Qmin down 1)%Q /\
     ((0 < short_sma)%Q -> (snd r == clamp down 0 1)%Q)) /\
  (~ ((long_sma < short_sma)%Q /\ (short_sma < latest)%Q) ->
   ~ ((short_sma < long_sma)%Q /\ (latest < short_sma)%Q) ->
     r = (hold, 0%Q)) /\
  (((long_sma < short_sma)%Q /\ (short_sma < latest)%Q /\ (long_sma == 0)%Q) \/
   ((short_sma < long_sma)%Q /\ (latest < short_sma)%Q /\ (short_sma == 0)%Q) ->
     r = (hold, 0%Q)).
Proof.
  intros r up down. subst r.
  rewrite (simple_strategy_unfold env symbol ohlcv closes short_sma long_sma
             latest Hloop Hfetch Hcloses Hshort Hlong Hlatest).
  unfold Qgtb.
  assert (Hclamp : forall x : Q, (0 < x)%Q -> (clamp x 0 1 == Qmin x 1)%Q).
  { intros x Hx. unfold clamp. apply Q.max_r.
    apply Q.min_glb; [apply Qlt_le_weak, Hx | discriminate]. }
  repeat split.
  - apply Qltb_lt in H, H0. rewrite H, H0. cbn [andb].
    rewrite (py_div_ok _ _ H1). reflexivity.
  - apply Qltb_lt in H, H0. rewrite H, H0. cbn [andb].
    rewrite (py_div_ok _ _ H1). cbn [rbind rcatch snd].
    rewrite py_min_Qmin. subst up. now rewrite Qmult_comm.
  - intros Hpos. pose proof H as Hlt.
    apply Qltb_lt in H, H0. rewrite H, H0. cbn [andb].
    rewrite (py_div_ok _ _ H1). cbn [rbind rcatch snd].
    rewrite py_min_Qmin, Hclamp.
    + subst up. now rewrite Qmult_comm.
    + subst up. apply Qmult_lt_0_compat; [reflexivity|].
      apply Qlt_shift_div_l; [exact Hpos|]. lra.
  - assert (Hn : Qltb long_sma short_sma = false) by (apply Qltb_ge; lra).
    apply Qltb_lt in H, H0. rewrite Hn, H, H0. cbn [andb].
    rewrite (py_div_ok _ _ H1). reflexivity.
  - assert (Hn : Qltb long_sma short_sma = false) by (apply Qltb_ge; lra).
    apply Qltb_lt in H, H0. rewrite Hn, H, H0. cbn [andb].
    rewrite (py_div_ok _ _ H1). cbn [rbind rcatch snd].
    rewrite py_min_Qmin. subst down. now rewrite Qmult_comm.
  - intros Hpos. pose proof H as Hlt.
    assert (Hn : Qltb long_sma short_sma = false) by (apply Qltb_ge; lra).
    apply Qltb_lt in H, H0. rewrite Hn, H, H0. cbn [andb].
    rewrite (py_div_ok _ _ H1). cbn [rbind rcatch snd].
    rewrite py_min_Qmin, Hclamp.
    + subst down. now rewrite Qmult_comm.
    + subst down. apply Qmult_lt_0_compat; [reflexivity|].
      apply Qlt_shift_div_l; [exact Hpos|]. lra.
  - intros Hb Hs.
    destruct (Qltb long_sma short_sma && Qltb short_sma latest) eqn:E1.
    { apply andb_true_iff in E1 as [E1 E2]. apply Qltb_lt in E1, E2.
      exfalso. apply Hb. now split. }
    destruct (Qltb short_sma long_sma && Qltb latest short_sma) eqn:E2.
    { apply andb_true_iff in E2 as [E2 E3]. apply Qltb_lt in E2, E3.
      exfalso. apply Hs. now split. }
    reflexivity.
  - intros [(H1 & H2 & Hz) | (H1 & H2 & Hz)].
    + apply Qltb_lt in H1, H2. rewrite H1, H2. cbn [andb].
      now rewrite (py_div_zero _ _ Hz).
    + assert (Hn : Qltb long_sma short_sma = false) by (apply Qltb_ge; lra).
      apply Qltb_lt in H1, H2. rewrite Hn, H1, H2. cbn [andb].
      now rewrite (py_div_zero _ _ Hz).
Qed.

Lemma simple_strategy_crossover_witness :
  fst (simple_strategy example_env "BTC/USDT") = buy /\
  (snd (simple_strategy example_env "BTC/USDT") == 150 # 251)%Q.
Proof.
  destruct (simple_strategy_crossover example_env "BTC/USDT" rising_history
              _ _ _ _ eq_refl eq_refl eq_refl eq_refl eq_refl eq_refl)
    as [Hbuy _].
  destruct Hbuy as (Hsig & Hconf & _).
  - vm_compute. reflexivity.
  - vm_compute. reflexivity.
  - vm_compute. discriminate.
  - split; [exact Hsig|]. rewrite Hconf. vm_compute. reflexivity.
Defined.

(** C3, counterexample.  On fifty closes at 100, 100, ..., 100, 120 the
    averages are 101 and 100.4 and the latest close is 120, so the signal is
    [buy]; the confidence is 150/251 (about 0.598), not the clamp of
    (101 - 100.4) / 100.4 = 3/502 (about 0.006). *)
Lemma simple_strategy_confidence_is_percent :
  exists closes short_sma long_sma latest,
    closing_prices rising_history = Ok closes /\
    calculate_sma closes 20 = Ok (Some short_sma) /\
    calculate_sma closes 50 = Ok (Some long_sma) /\
    last closes = Some latest /\
    (long_sma < short_sma)%Q /\ (short_sma < latest)%Q /\
    fst (simple_strategy example_env "BTC/USDT") = buy /\
    (snd (simple_strategy example_env "BTC/USDT") == 150 # 251)%Q /\
    (clamp ((short_sma - long_sma) / long_sma) 0 1 == 3 # 502)%Q /\
    ~ (snd (simple_strategy example_env "BTC/USDT")
       == clamp ((short_sma - long_sma) / long_sma) 0 1)%Q.
Proof.
  eexists _, _, _, _.
  split; [vm_compute; reflexivity|].
  split; [vm_compute; reflexivity|].
  split; [vm_compute; reflexivity|].
  split; [vm_compute; reflexivity|].
  split; [vm_compute; reflexivity|].
  split; [vm_compute; reflexivity|].
  split; [vm_compute; reflexivity|].
  split; [vm_compute; reflexivity|].
  split; [vm_compute; reflexivity|].
  vm_compute. discriminate.
Qed.

(** ** The risk gate *)

(** [check_risk_management] never raises: it answers the conjunction of its
    three checks on the bot after the daily reset, and the reset is its only
    effect. *)
Lemma check_risk_management_eq (env : Env) (w : World) :
  check_risk_management env w =
  (Ok (negb (loss_limit_reached (roll_over env (bot w))
             || balance_too_low env (roll_over env (bot w))
             || positions_full (roll_over env (bot w)))),
   with_bot (roll_over env) w).
Proof.
  unfold check_risk_management, roll_over, with_bot, bind, get_self.
  destruct w as [b log]. cbn [bot sent].
  set (b' := if today env >? last_reset_date b
             then set_last_reset_date (today env) (set_daily_pnl 0%Q b)
             else b).
  assert (Hstep :
    (if today env >? last_reset_date b
     then modify_self (fun b0 =>
            set_last_reset_date (today env) (set_daily_pnl 0%Q b0))
     else ret tt) (mkWorld b log) = (Ok tt, mkWorld b' log)).
  { subst b'. destruct (today env >? last_reset_date b); reflexivity. }
  rewrite Hstep. cbn [bot sent].
  unfold loss_limit_reached, balance_too_low, positions_full.
  destruct (Qle_bool (daily_pnl b') (- max_daily_loss b')); [reflexivity|].
  cbn [orb negb]. unfold try_except, lift.
  destruct (let? balance := asyncio_run env (Ok (get_balance env)) in
            py_lt (dict_get (dict_get balance "USDT" ∅) "free" (PyNum 0%Q))
                  (min_balance b')) as [[|]|e];
    cbn [rcatch ret orb negb]; try reflexivity;
    destruct (Z.of_nat (size (positions b')) >=? max_positions b');
    reflexivity.
Qed.

Lemma roll_over_new_day (env : Env) (b : Bot) :
  last_reset_date b < today env ->
  roll_over env b = set_last_reset_date (today env) (set_daily_pnl 0%Q b).
Proof.
  intros H. unfold roll_over.
  destruct (today env >? last_reset_date b) eqn:E; [reflexivity|].
  rewrite Z.gtb_ltb in E. apply Z.ltb_ge in E. lia.
Qed.

Lemma roll_over_same_day (env : Env) (b : Bot) :
  today env <= last_reset_date b -> roll_over env b = b.
Proof.
  intros H. unfold roll_over.
  destruct (today env >? last_reset_date b) eqn:E; [|reflexivity].
  rewrite Z.gtb_ltb in E. apply Z.ltb_lt in E. lia.
Qed.

(** C6.  On a day later than the last reset, [check_risk_management] sets
    the daily PnL to 0 and the reset date to today whatever its answer; the
    answer is the one the gate gives on the reset state, so it does not
    depend on the PnL of the previous day; and with a positive loss limit
    the loss check passes, the answer being left to the balance and
    position-count checks. *)
Theorem check_risk_management_daily_reset
    (env : Env) (w : World) (Hnew : last_reset_date (bot w) < today env) :
  let r := fst (check_risk_management env w) in
  let w' := snd (check_risk_management env w) in
  (daily_pnl (bot w') = 0%Q /\ last_reset_date (bot w') = today env) /\
  w' = with_bot (fun b => set_last_reset_date (today env)
                            (set_daily_pnl 0%Q b)) w /\
  r = fst (check_risk_management env w') /\
  (forall pnl : Q,
     fst (check_risk_management env (with_bot (set_daily_pnl pnl) w)) = r) /\
  ((0 < max_daily_loss (bot w))%Q ->
     loss_limit_reached (bot w') = false /\
     r = Ok (negb (balance_too_low env (bot w) || positions_full (bot w)))).
Proof.
  intros r w'. subst r w'. rewrite !check_risk_management_eq. cbn [fst snd].
  destruct w as [b log]. unfold with_bot. cbn [bot sent] in *.
  rewrite (roll_over_new_day env b Hnew).
  split; [split; reflexivity|].
  split; [reflexivity|].
  split.
  { rewrite roll_over_same_day; [reflexivity | simpl; lia]. }
  split.
  { intros pnl. rewrite check_risk_management_eq. cbn [fst bot].
    rewrite roll_over_new_day; [reflexivity | exact Hnew]. }
  intros Hpos.
  assert (Hloss : loss_limit_reached
            (set_last_reset_date (today env) (set_daily_pnl 0%Q b)) = false).
  { unfold loss_limit_reached. cbn.
    destruct (Qle_bool 0 (- max_daily_loss b)) eqn:E; [|reflexivity].
    apply Qle_bool_iff in E. lra. }
  split; [exact Hloss|]. rewrite Hloss. reflexivity.
Qed.

Lemma check_risk_management_daily_reset_witness :
  loss_limit_reached (bot loss_limit_world) = true /\
  fst (check_risk_management example_env loss_limit_world) = Ok true /\
  daily_pnl (bot (snd (check_risk_management example_env loss_limit_world)))
  = 0%Q.
Proof.
  assert (Hnew : last_reset_date (bot loss_limit_world) < today example_env)
    by (vm_compute; reflexivity).
  destruct (check_risk_management_daily_reset example_env loss_limit_world Hnew)
    as ((Hpnl & _) & _ & _ & _ & Hallow).
  split; [vm_compute; reflexivity|].
  split; [|exact Hpnl].
  destruct Hallow as [_ Hr]; [vm_compute; reflexivity|].
  rewrite Hr. vm_compute. reflexivity.
Defined.

(** A failed balance fetch, outside an event loop, is read as a free
    balance of 0. *)
Lemma balance_too_low_fetch_failure (env : Env) (b : Bot) (e : exn) :
  loop_running env = false -> fetch_balance env = Raise e ->
  balance_too_low env b = Qltb 0 (min_balance b).
Proof.
  intros Hloop Hfetch. unfold balance_too_low, asyncio_run, get_balance.
  rewrite Hloop, Hfetch. reflexivity.
Qed.

(** Inside a running event loop [asyncio.run] raises and the balance check
    is skipped. *)
Lemma balance_too_low_loop_running (env : Env) (b : Bot) :
  loop_running env = true -> balance_too_low env b = false.
Proof.
  intros Hloop. unfold balance_too_low, asyncio_run. now rewrite Hloop.
Qed.

(** C2, the code at the failing input.  With the default settings (minimum
    balance 50, no loss, no open position) and a balance fetch that raises,
    [check_risk_management] answers [False]: the failed fetch is read as a
    balance of 0, although neither the loss limit nor the position count
    stands in the way. *)
Theorem check_risk_management_denies_on_fetch_failure :
  fetch_balance balance_failure_env = Raise ExchangeError /\
  loss_limit_reached example_bot = false /\
  positions_full example_bot = false /\
  fst (check_risk_management balance_failure_env example_world) = Ok false.
Proof.
  repeat split; vm_compute; reflexivity.
Qed.

(** ** Status *)

(** C10.  [get_status] returns the trading flag, the number of open
    positions and the daily PnL as stored, and leaves the bot and the order
    log as they are; on a day later than the last reset it still reports the
    stored PnL, and only after [check_risk_management] has run does it
    report 0. *)
Theorem get_status_read_only (env : Env) (w : World) :
  get_status w =
    (Ok (mkStatus (is_trading (bot w)) (size (positions (bot w)))
           (daily_pnl (bot w)) (exchange_name (bot w)) (sandbox (bot w))),
     w) /\
  (last_reset_date (bot w) < today env ->
   forall st st',
     fst (get_status (snd (get_status w))) = Ok st ->
     fst (get_status (snd (check_risk_management env w))) = Ok st' ->
     status_daily_pnl st = daily_pnl (bot w) /\
     last_reset_date (bot (snd (get_status w))) = last_reset_date (bot w) /\
     status_daily_pnl st' = 0%Q).
Proof.
  split; [reflexivity|].
  intros Hnew st st' Hst Hst'.
  rewrite check_risk_management_eq in Hst'. cbn in Hst, Hst'.
  inversion Hst; subst; clear Hst. inversion Hst'; subst; clear Hst'.
  cbn. rewrite (roll_over_new_day env (bot w) Hnew). repeat split.
Qed.

Lemma get_status_read_only_witness :
  exists st,
    fst (get_status loss_limit_world) = Ok st /\
    (status_daily_pnl st == -100)%Q /\
    snd (get_status loss_limit_world) = loss_limit_world.
Proof.
  destruct (get_status_read_only example_env loss_limit_world) as [Heq Hday].
  eexists. rewrite Heq. cbn [fst snd]. split; [reflexivity|].
  split; [|reflexivity].
  assert (Hnew : last_reset_date (bot loss_limit_world) < today example_env)
    by (vm_compute; reflexivity).
  destruct (Hday Hnew _ _ eq_refl eq_refl) as (Hpnl & _ & _).
  cbn [status_daily_pnl] in Hpnl |- *. vm_compute. reflexivity.
Defined.

(** ** Orders *)

Lemma dict_truthy_empty {V} : dict_truthy (∅ : gmap string V) = false.
Proof. unfold dict_truthy. now rewrite map_size_empty. Qed.

Lemma dict_truthy_lookup {V} (d : gmap string V) (k : string) (v : V) :
  d !! k = Some v -> dict_truthy d = true.
Proof.
  intros H. unfold dict_truthy. apply negb_true_iff, Nat.eqb_neq.
  apply map_size_non_empty_iff. intros ->. now rewrite lookup_empty in H.
Qed.


(** [place_order] for a buy or a sell: one call of [create_order], logged,
    and never an exception. *)
Lemma place_order_eq (env : Env) (symbol : string) (sd : Signal) (amt : Q)
    (ty : OrderType) (w : World) :
  sd <> hold ->
  place_order env symbol sd amt ty w =
  (Ok (placed (create_order env (sent w)
                 (mkRequest symbol ty sd amt None None))),
   mkWorld (bot w) (mkRequest symbol ty sd amt None None :: sent w)).
Proof.
  intros Hsd. unfold place_order, try_except, bind, call_create_order, placed.
  destruct sd; try congruence;
    (destruct (create_order env (sent w) _) as [order|e]; cbn;
     [unfold py_getitem; destruct (order !! "id"); reflexivity | reflexivity]).
Qed.


(** [set_stop_loss_take_profit] never raises, leaves the bot alone and
    extends the log by the stop order and, if that was accepted, the
    take-profit order. *)
Lemma set_stop_loss_take_profit_eq (env : Env) (symbol : string)
    (sd : Signal) (entry amt : Q) (w : World) :
  exists r,
    set_stop_loss_take_profit env symbol sd entry amt w =
    (Ok r, mkWorld (bot w) (exit_log env (bot w) symbol sd entry amt (sent w))).
Proof.
  unfold set_stop_loss_take_profit, try_except, bind, get_self,
    call_create_order, exit_log, stop_request, take_profit_request, exit_side.
  destruct sd; cbn [bot sent];
    (destruct (create_order env (sent w) _) as [stop_order|e]; cbn [bot sent];
     [destruct (create_order env (_ :: sent w) _) as [tp_order|e];
      cbn; eexists; reflexivity
     | cbn; eexists; reflexivity]).
Qed.

(** C9.  For a buy entry at price [p] the stop order carries the stop price
    p * (1 - stop_loss_percent / 100) and the take-profit order the limit
    price p * (1 + take_profit_percent / 100); for a sell entry the two
    signs are exchanged.  The stop order is sent first and the take-profit
    order follows when the exchange accepted the stop order.  With entry
    100, a 2% stop and a 5% take-profit the prices are 98 and 105. *)
Theorem set_stop_loss_take_profit_prices
    (env : Env) (symbol : string) (p amt : Q) (w : World) :
  let sl := stop_loss_percent (bot w) in
  let tp := take_profit_percent (bot w) in
  let sent_after sd :=
    sent (snd (set_stop_loss_take_profit env symbol sd p amt w)) in
  let long_stop :=
    mkRequest symbol stop_market sell amt None (Some (p * (1 - sl / 100))%Q) in
  let long_tp :=
    mkRequest symbol limit sell amt (Some (p * (1 + tp / 100))%Q) None in
  let short_stop :=
    mkRequest symbol stop_market buy amt None (Some (p * (1 + sl / 100))%Q) in
  let short_tp :=
    mkRequest symbol limit buy amt (Some (p * (1 - tp / 100))%Q) None in
  sent_after buy =
    match create_order env (sent w) long_stop with
    | Ok _ => long_tp :: long_stop :: sent w
    | Raise _ => long_stop :: sent w
    end /\
  sent_after sell =
    match create_order env (sent w) short_stop with
    | Ok _ => short_tp :: short_stop :: sent w
    | Raise _ => short_stop :: sent w
    end /\
  exists stop_price limit_price,
    sent (snd (set_stop_loss_take_profit example_env "BTC/USDT" buy 100
                 (1 # 10) example_world)) =
      [mkRequest "BTC/USDT" limit sell (1 # 10) (Some limit_price) None;
       mkRequest "BTC/USDT" stop_market sell (1 # 10) None (Some stop_price)]
    /\ (stop_price == 98)%Q /\ (limit_price == 105)%Q.
Proof.
  intros sl tp sent_after long_stop long_tp short_stop short_tp.
  subst sent_after. cbn beta.
  destruct (set_stop_loss_take_profit_eq env symbol buy p amt w) as [r1 H1].
  destruct (set_stop_loss_take_profit_eq env symbol sell p amt w) as [r2 H2].
  rewrite H1, H2. cbn [snd sent].
  split; [reflexivity|]. split; [reflexivity|].
  eexists _, _. split; [vm_compute; reflexivity|].
  split; vm_compute; reflexivity.
Qed.

(** ** Trade execution *)

Lemma Signal_eqb_hold_false (sd : Signal) :
  Signal_eqb sd hold = false -> sd <> hold.
Proof. destruct sd; simpl; congruence. Qed.

(** [execute_trade] step by step: it never raises; it stops with [None]
    after the risk gate, the signal, the quote or the entry order; and when
    the entry order is placed it sends the exit orders and then records the
    position. *)
Lemma execute_trade_eq (env : Env) (symbol : string) (w : World) :
  execute_trade env symbol w =
  let w1 := with_bot (roll_over env) w in
  if negb (risk_allows env (bot w1)) then (Ok None, w1)
  else
    let '(signal, confidence) := simple_strategy env symbol in
    if Signal_eqb signal hold || Qltb confidence (3 # 10) then (Ok None, w1)
    else
      match quoted_price env symbol with
      | PyNone => (Ok None, w1)
      | PyNum price =>
          if Qeq_bool price 0 then (Ok None, w1)
          else
            let amt := (trade_amount (bot w1) / price)%Q in
            let entry := entry_request symbol signal amt in
            let order := placed (create_order env (sent w1) entry) in
            if dict_truthy order then
              (Ok (Some order),
               mkWorld
                 (set_positions
                    (<[symbol := mkPosition signal amt price (now_iso env)
                                   (order !! "id")]> (positions (bot w1)))
                    (bot w1))
                 (exit_log env (bot w1) symbol signal price amt
                    (entry :: sent w1)))
            else (Ok None, mkWorld (bot w1) (entry :: sent w1))
      end.
Proof.
  unfold execute_trade, bind at 1. rewrite check_risk_management_eq.
  fold (risk_allows env (roll_over env (bot w))).
  cbn zeta. unfold with_bot at 2. cbn [bot].
  destruct (risk_allows env (roll_over env (bot w))); cbn [negb];
    [|reflexivity].
  destruct (simple_strategy env symbol) as [signal confidence].
  destruct (Signal_eqb signal hold) eqn:Hhold; [reflexivity|].
  cbn [orb]. destruct (Qltb confidence (3 # 10)); [reflexivity|].
  apply Signal_eqb_hold_false in Hhold.
  unfold try_except. fold (quoted_price env symbol).
  destruct (quoted_price env symbol) as [|price]; [reflexivity|].
  unfold py_div.
  destruct (Qeq_bool price 0); [reflexivity|].
  unfold bind, get_self, lift. cbn [bot sent with_bot].
  rewrite (place_order_eq env symbol signal _ market _ Hhold).
  cbn [bot sent]. unfold entry_request.
  destruct (dict_truthy _); [|reflexivity].
  match goal with
  | |- context [set_stop_loss_take_profit ?e ?s ?sd ?p ?a ?w0] =>
      destruct (set_stop_loss_take_profit_eq e s sd p a w0) as [r Hr];
      rewrite Hr
  end.
  reflexivity.
Qed.

Lemma positions_roll_over (env : Env) (b : Bot) :
  positions (roll_over env b) = positions b.
Proof. unfold roll_over. now destruct (today env >? last_reset_date b). Qed.

Lemma trade_amount_roll_over (env : Env) (b : Bot) :
  trade_amount (roll_over env b) = trade_amount b.
Proof. unfold roll_over. now destruct (today env >? last_reset_date b). Qed.

Lemma percents_roll_over (env : Env) (b : Bot) :
  stop_loss_percent (roll_over env b) = stop_loss_percent b /\
  take_profit_percent (roll_over env b) = take_profit_percent b.
Proof. unfold roll_over. now destruct (today env >? last_reset_date b). Qed.

(** What one call of [execute_trade] can do to the ledger and the log:
    either no order is placed, the ledger is untouched and at most the
    refused entry order is logged; or the entry order is placed at a
    non-zero quoted price and the position is stored under the symbol. *)
Lemma execute_trade_cases (env : Env) (symbol : string) (w : World) :
  let r := fst (execute_trade env symbol w) in
  let w' := snd (execute_trade env symbol w) in
  (r = Ok None /\ positions (bot w') = positions (bot w) /\
   (sent w' = sent w \/
    exists signal price,
      quoted_price env symbol = PyNum price /\
      sent w' = entry_request symbol signal (trade_amount (bot w) / price)
                  :: sent w /\
      dict_truthy (placed (create_order env (sent w)
        (entry_request symbol signal (trade_amount (bot w) / price))))
      = false)) \/
  (exists signal confidence price order,
     fst (check_risk_management env w) = Ok true /\
     simple_strategy env symbol = (signal, confidence) /\
     signal <> hold /\ (3 # 10 <= confidence)%Q /\
     quoted_price env symbol = PyNum price /\ ~ (price == 0)%Q /\
     order = placed (create_order env (sent w)
       (entry_request symbol signal (trade_amount (bot w) / price))) /\
     dict_truthy order = true /\
     r = Ok (Some order) /\
     positions (bot w') =
       <[symbol := mkPosition signal (trade_amount (bot w) / price)%Q price
                     (now_iso env) (order !! "id")]> (positions (bot w)) /\
     sent w' =
       exit_log env (bot w) symbol signal price
         (trade_amount (bot w) / price)
         (entry_request symbol signal (trade_amount (bot w) / price)
            :: sent w)).
Proof.
  intros r w'. subst r w'. rewrite execute_trade_eq, check_risk_management_eq.
  fold (risk_allows env (roll_over env (bot w))).
  cbn zeta. unfold with_bot. cbn [bot sent fst].
  rewrite trade_amount_roll_over, positions_roll_over.
  destruct (risk_allows env (roll_over env (bot w))); cbn [negb];
    [|left; cbn; rewrite positions_roll_over; auto].
  destruct (simple_strategy env symbol) as [signal confidence].
  destruct (Signal_eqb signal hold) eqn:Hhold;
    [left; cbn; rewrite positions_roll_over; auto|].
  cbn [orb]. destruct (Qltb confidence (3 # 10)) eqn:Hconf;
    [left; cbn; rewrite positions_roll_over; auto|].
  destruct (quoted_price env symbol) as [|price] eqn:Hquote;
    [left; cbn; rewrite positions_roll_over; auto|].
  destruct (Qeq_bool price 0) eqn:Hzero;
    [left; cbn; rewrite positions_roll_over; auto|].
  destruct (dict_truthy _) eqn:Hplaced.
  - right. exists signal, confidence, price. eexists.
    split; [reflexivity|]. split; [reflexivity|].
    split; [now apply Signal_eqb_hold_false|].
    split; [now apply Qltb_ge|].
    split; [reflexivity|].
    split; [now apply Qeq_bool_false|].
    split; [reflexivity|].
    split; [exact Hplaced|].
    split; [reflexivity|].
    cbn [fst snd bot sent set_positions positions].
    split; [reflexivity|].
    unfold exit_log, stop_request, take_profit_request.
    destruct (percents_roll_over env (bot w)) as [-> ->]. reflexivity.
  - left. cbn [fst snd bot sent]. rewrite positions_roll_over.
    split; [reflexivity|]. split; [reflexivity|].
    right. exists signal, price. auto.
Qed.

(** [execute_trade] never raises. *)
Lemma execute_trade_never_raises (env : Env) (symbol : string) (w : World) :
  exists r, fst (execute_trade env symbol w) = Ok r.
Proof.
  destruct (execute_trade_cases env symbol w)
    as [(Hr & _) | (sg & cf & pr & order & _ & _ & _ & _ & _ & _ & _ & _ & Hr & _)];
    eauto.
Qed.

(** C7, as amended.  When the exchange fails the entry order that
    [execute_trade] sends (the order for the strategy's signal, sized from
    the quoted price: the call raises, or its answer carries no ['id']),
    [execute_trade] returns [None], the ledger is as before, and the log
    holds at most that refused entry order in addition: no exit order is
    sent.  The bot is left as the risk gate left it: unchanged on the day of
    the last reset, and with the daily reset applied on a later day. *)
Theorem execute_trade_entry_failure
    (env : Env) (symbol : string) (w : World)
    (Hfail : forall sd confidence price,
       simple_strategy env symbol = (sd, confidence) ->
       quoted_price env symbol = PyNum price ->
       match create_order env (sent w)
               (entry_request symbol sd (trade_amount (bot w) / price)) with
       | Ok order => order !! "id" = None
       | Raise _ => True
       end) :
  let r := fst (execute_trade env symbol w) in
  let w' := snd (execute_trade env symbol w) in
  r = Ok None /\
  positions (bot w') = positions (bot w) /\
  (sent w' = sent w \/
   exists price,
     quoted_price env symbol = PyNum price /\
     sent w' = entry_request symbol (fst (simple_strategy env symbol))
                 (trade_amount (bot w) / price) :: sent w) /\
  bot w' = roll_over env (bot w) /\
  (today env <= last_reset_date (bot w) -> bot w' = bot w).
Proof.
  intros r w'. subst r w'. rewrite execute_trade_eq. cbn zeta.
  unfold with_bot. cbn [bot sent].
  assert (Hsame : today env <= last_reset_date (bot w) ->
                  roll_over env (bot w) = bot w)
    by apply roll_over_same_day.
  destruct (negb _);
    [cbn [fst snd bot sent]; rewrite positions_roll_over; auto 6|].
  destruct (simple_strategy env symbol) as [sg cf] eqn:Hsignal.
  destruct (_ || _);
    [cbn [fst snd bot sent]; rewrite positions_roll_over; auto 6|].
  destruct (quoted_price env symbol) as [|pr] eqn:Hquote;
    [cbn [fst snd bot sent]; rewrite positions_roll_over; auto 6|].
  destruct (Qeq_bool pr 0);
    [cbn [fst snd bot sent]; rewrite positions_roll_over; auto 6|].
  rewrite trade_amount_roll_over.
  specialize (Hfail sg cf pr eq_refl eq_refl).
  assert (Hplaced : placed (create_order env (sent w)
                      (entry_request symbol sg (trade_amount (bot w) / pr)))
                    = ∅).
  { unfold placed.
    destruct (create_order env (sent w) _) as [order|e]; [|reflexivity].
    now rewrite Hfail. }
  rewrite Hplaced, dict_truthy_empty.
  cbn [fst snd bot sent]. rewrite positions_roll_over.
  split; [reflexivity|]. split; [reflexivity|].
  split; [right; exists pr; auto|]. auto.
Qed.

Lemma execute_trade_entry_failure_witness :
  fst (execute_trade entry_failure_env "BTC/USDT" example_world) = Ok None /\
  positions (bot (snd (execute_trade entry_failure_env "BTC/USDT"
                         example_world))) = ∅ /\
  length (sent (snd (execute_trade entry_failure_env "BTC/USDT"
                       example_world))) = 1%nat.
Proof.
  assert (Hfail : forall sd confidence price,
    simple_strategy entry_failure_env "BTC/USDT" = (sd, confidence) ->
    quoted_price entry_failure_env "BTC/USDT" = PyNum price ->
    match create_order entry_failure_env (sent example_world)
            (entry_request "BTC/USDT" sd
               (trade_amount (bot example_world) / price)) with
    | Ok order => order !! "id" = None
    | Raise _ => True
    end) by (intros sd confidence price _ _; exact I).
  destruct (execute_trade_entry_failure entry_failure_env "BTC/USDT"
              example_world Hfail) as (Hr & Hpos & _).
  split; [exact Hr|]. split; [exact Hpos|].
  vm_compute. reflexivity.
Defined.

(** C7, counterexample.  On day 100 a bot last reset on day 99 with a daily
    PnL of -50 meets an exchange that refuses the entry order:
    [execute_trade] returns [None] and the ledger is as before, but the
    state is not: the daily PnL is now 0 and the reset date 100, and the
    refused entry order is in the log. *)
Lemma entry_failure_changes_state :
  (exists e,
     create_order entry_failure_env (sent reset_due_world)
       (entry_request "BTC/USDT" buy
          (trade_amount (bot reset_due_world) / 100)) = Raise e) /\
  fst (execute_trade entry_failure_env "BTC/USDT" reset_due_world)
  = Ok None /\
  positions (bot (snd (execute_trade entry_failure_env "BTC/USDT"
                         reset_due_world)))
  = positions (bot reset_due_world) /\
  (daily_pnl (bot reset_due_world) == -50)%Q /\
  last_reset_date (bot reset_due_world) = 99 /\
  daily_pnl (bot (snd (execute_trade entry_failure_env "BTC/USDT"
                         reset_due_world))) = 0%Q /\
  last_reset_date (bot (snd (execute_trade entry_failure_env "BTC/USDT"
                               reset_due_world))) = 100 /\
  length (sent (snd (execute_trade entry_failure_env "BTC/USDT"
                       reset_due_world))) = 1%nat /\
  snd (execute_trade entry_failure_env "BTC/USDT" reset_due_world)
  <> reset_due_world.
Proof.
  split; [exists ExchangeError; reflexivity|].
  split; [vm_compute; reflexivity|].
  split; [vm_compute; reflexivity|].
  split; [reflexivity|].
  split; [reflexivity|].
  split; [vm_compute; reflexivity|].
  split; [vm_compute; reflexivity|].
  split; [vm_compute; reflexivity|].
  intros Heq. apply (f_equal (fun x => last_reset_date (bot x))) in Heq.
  vm_compute in Heq. discriminate.
Qed.

(** The exit-order step reports [(None, None)] when one of its two orders
    raises. *)
Lemma set_stop_loss_take_profit_fails (env : Env) (symbol : string)
    (sd : Signal) (entry amt : Q) (w : World) :
  exits_fail env (sent w) (stop_request (bot w) symbol sd entry amt)
    (take_profit_request (bot w) symbol sd entry amt) ->
  fst (set_stop_loss_take_profit env symbol sd entry amt w) = Ok (None, None).
Proof.
  unfold exits_fail, stop_request, take_profit_request, exit_side.
  unfold set_stop_loss_take_profit, try_except, bind, get_self,
    call_create_order.
  intros [[e He] | [e He]]; destruct sd; cbn [bot sent] in *;
    try (rewrite He; reflexivity);
    (destruct (create_order env (sent w) _) as [stop_order|e'];
     [cbn [bot sent]; rewrite He; reflexivity | reflexivity]).
Qed.

(** The run of [execute_trade] once the risk gate, the signal and the quote
    let it size the order. *)
Lemma execute_trade_sized
    (env : Env) (symbol : string) (w : World)
    (signal : Signal) (confidence price : Q) :
  fst (check_risk_management env w) = Ok true ->
  simple_strategy env symbol = (signal, confidence) ->
  signal <> hold ->
  (3 # 10 <= confidence)%Q ->
  quoted_price env symbol = PyNum price ->
  ~ (price == 0)%Q ->
  execute_trade env symbol w =
  let amt := (trade_amount (bot w) / price)%Q in
  let entry := entry_request symbol signal amt in
  let order := placed (create_order env (sent w) entry) in
  if dict_truthy order then
    (Ok (Some order),
     mkWorld
       (set_positions
          (<[symbol := mkPosition signal amt price (now_iso env)
                         (order !! "id")]> (positions (bot w)))
          (roll_over env (bot w)))
       (exit_log env (bot w) symbol signal price amt (entry :: sent w)))
  else (Ok None, mkWorld (roll_over env (bot w)) (entry :: sent w)).
Proof.
  intros Hrisk Hsignal Hdir Hconf Hquote Hprice.
  rewrite execute_trade_eq.
  rewrite check_risk_management_eq in Hrisk. cbn [fst] in Hrisk.
  fold (risk_allows env (roll_over env (bot w))) in Hrisk.
  inversion Hrisk as [Hallow]. cbn zeta.
  unfold with_bot. cbn [bot sent].
  rewrite Hallow, Hsignal. cbn [negb].
  assert (Hnothold : Signal_eqb signal hold = false)
    by (destruct signal; [reflexivity | reflexivity | congruence]).
  apply Qltb_ge in Hconf. rewrite Hnothold, Hconf, Hquote. cbn [orb].
  apply Qeq_bool_false in Hprice. rewrite Hprice.
  rewrite trade_amount_roll_over, positions_roll_over.
  unfold exit_log, stop_request, take_profit_request.
  destruct (percents_roll_over env (bot w)) as [-> ->]. reflexivity.
Qed.

(** The same run when the exchange accepts the entry order. *)
Lemma execute_trade_placed
    (env : Env) (symbol : string) (w : World)
    (signal : Signal) (confidence price : Q) (order : Order) (i : string) :
  fst (check_risk_management env w) = Ok true ->
  simple_strategy env symbol = (signal, confidence) ->
  signal <> hold ->
  (3 # 10 <= confidence)%Q ->
  quoted_price env symbol = PyNum price ->
  ~ (price == 0)%Q ->
  create_order env (sent w)
    (entry_request symbol signal (trade_amount (bot w) / price)) = Ok order ->
  order !! "id" = Some i ->
  execute_trade env symbol w =
  (Ok (Some order),
   mkWorld
     (set_positions
        (<[symbol := mkPosition signal (trade_amount (bot w) / price)%Q price
                       (now_iso env) (Some i)]> (positions (bot w)))
        (roll_over env (bot w)))
     (exit_log env (bot w) symbol signal price (trade_amount (bot w) / price)
        (entry_request symbol signal (trade_amount (bot w) / price)
           :: sent w))).
Proof.
  intros Hrisk Hsignal Hdir Hconf Hquote Hprice Hentry Hid.
  rewrite (execute_trade_sized env symbol w signal confidence price
             Hrisk Hsignal Hdir Hconf Hquote Hprice).
  cbn zeta. rewrite Hentry. cbn [placed].
  rewrite Hid, (dict_truthy_lookup order "id" i Hid), Hid. reflexivity.
Qed.

(** C8.  When the risk gate allows, the signal is a buy or a sell with
    confidence at least 0.3, the quoted price is not zero and the exchange
    accepts the entry order, then, although the exit-order step fails (it
    returns [(None, None)]), [execute_trade] returns the entry order and
    stores the position under the symbol; the rest of the ledger is as
    before. *)
Theorem execute_trade_exit_failure
    (env : Env) (symbol : string) (w : World)
    (signal : Signal) (confidence price : Q) (order : Order) (i : string)
    (Hrisk : fst (check_risk_management env w) = Ok true)
    (Hsignal : simple_strategy env symbol = (signal, confidence))
    (Hdir : signal <> hold)
    (Hconf : (3 # 10 <= confidence)%Q)
    (Hquote : quoted_price env symbol = PyNum price)
    (Hprice : ~ (price == 0)%Q)
    (Hentry : create_order env (sent w)
                (entry_request symbol signal (trade_amount (bot w) / price))
              = Ok order)
    (Hid : order !! "id" = Some i)
    (Hexit : exits_fail env
               (entry_request symbol signal (trade_amount (bot w) / price)
                  :: sent w)
               (stop_request (bot w) symbol signal price
                  (trade_amount (bot w) / price))
               (take_profit_request (bot w) symbol signal price
                  (trade_amount (bot w) / price))) :
  let amt := (trade_amount (bot w) / price)%Q in
  let w' := snd (execute_trade env symbol w) in
  fst (set_stop_loss_take_profit env symbol signal price amt
         (mkWorld (bot (snd (check_risk_management env w)))
            (entry_request symbol signal amt :: sent w)))
  = Ok (None, None) /\
  fst (execute_trade env symbol w) = Ok (Some order) /\
  positions (bot w') =
    <[symbol := mkPosition signal amt price (now_iso env) (Some i)]>
      (positions (bot w)).
Proof.
  intros amt w'. subst amt w'.
  rewrite (execute_trade_placed env symbol w signal confidence price order i
             Hrisk Hsignal Hdir Hconf Hquote Hprice Hentry Hid).
  split; [|split; reflexivity].
  apply set_stop_loss_take_profit_fails.
  rewrite check_risk_management_eq. cbn [snd with_bot bot sent].
  unfold stop_request, take_profit_request in *.
  destruct (percents_roll_over env (bot w)) as [-> ->]. exact Hexit.
Qed.

Lemma execute_trade_exit_failure_witness :
  fst (execute_trade exit_failure_env "BTC/USDT" example_world)
  = Ok (Some {[ "id" := "42" ]}) /\
  exists p,
    positions (bot (snd (execute_trade exit_failure_env "BTC/USDT"
                           example_world))) !! "BTC/USDT" = Some p /\
    side p = buy /\ (amount p == 1 # 10)%Q /\ (entry_price p == 100)%Q.
Proof.
  assert (Hsignal : simple_strategy exit_failure_env "BTC/USDT"
                    = (buy, 3000000 # 5020000))
    by (vm_compute; reflexivity).
  assert (Hdir : buy <> hold) by discriminate.
  assert (Hconf : (3 # 10 <= 3000000 # 5020000)%Q)
    by (vm_compute; discriminate).
  assert (Hprice : ~ (100 == 0)%Q) by (vm_compute; discriminate).
  assert (Hexit : exits_fail exit_failure_env
            (entry_request "BTC/USDT" buy
               (trade_amount (bot example_world) / 100)
               :: sent example_world)
            (stop_request (bot example_world) "BTC/USDT" buy 100
               (trade_amount (bot example_world) / 100))
            (take_profit_request (bot example_world) "BTC/USDT" buy 100
               (trade_amount (bot example_world) / 100)))
    by (left; exists ExchangeError; reflexivity).
  destruct (execute_trade_exit_failure exit_failure_env "BTC/USDT"
              example_world buy (3000000 # 5020000) 100 {[ "id" := "42" ]}
              "42" eq_refl Hsignal Hdir Hconf eq_refl Hprice eq_refl eq_refl
              Hexit) as (_ & Hr & Hpos).
  split; [exact Hr|].
  eexists. rewrite Hpos, lookup_insert_eq.
  split; [reflexivity|]. cbn [side amount entry_price].
  split; [reflexivity|]. split; vm_compute; reflexivity.
Defined.

(** C1, as amended.  With a position already stored for the symbol,
    [execute_trade] on that symbol does not fail; when it returns [None] the
    ledger is as before, and when it returns the entry order the stored
    position is replaced by the new one (side, quantity, entry price, time
    and order id of the new trade) while the number of positions stays the
    same. *)
Theorem execute_trade_overwrites
    (env : Env) (symbol : string) (w : World) (old : Position)
    (Hold : positions (bot w) !! symbol = Some old) :
  let r := fst (execute_trade env symbol w) in
  let w' := snd (execute_trade env symbol w) in
  (exists res, r = Ok res) /\
  (r = Ok None -> positions (bot w') = positions (bot w)) /\
  (forall order, r = Ok (Some order) ->
     exists signal confidence price,
       simple_strategy env symbol = (signal, confidence) /\
       quoted_price env symbol = PyNum price /\
       positions (bot w') =
         <[symbol := mkPosition signal (trade_amount (bot w) / price)%Q price
                       (now_iso env) (order !! "id")]> (positions (bot w)) /\
       size (positions (bot w')) = size (positions (bot w))).
Proof.
  intros r w'. subst r w'.
  split; [apply execute_trade_never_raises|].
  destruct (execute_trade_cases env symbol w)
    as [(Hr & Hpos & _)
       | (sg & cf & pr & o & _ & Hsg & _ & _ & Hq & _ & _ & _ & Hr & Hpos & _)].
  - split; [intros _; exact Hpos|]. intros order Ho. congruence.
  - split; [intros Hnone; congruence|].
    intros order Ho. rewrite Hr in Ho. inversion Ho; subst o.
    exists sg, cf, pr. repeat split; try assumption.
    rewrite Hpos. apply map_size_insert_Some. eauto.
Qed.

Lemma execute_trade_overwrites_witness :
  exists p,
    positions (bot (snd (execute_trade example_env "BTC/USDT"
                           short_position_world))) !! "BTC/USDT" = Some p /\
    side p = buy /\
    size (positions (bot (snd (execute_trade example_env "BTC/USDT"
                                 short_position_world)))) = 1%nat.
Proof.
  assert (Hold : positions (bot short_position_world) !! "BTC/USDT"
                 = Some short_position) by (vm_compute; reflexivity).
  destruct (execute_trade_overwrites example_env "BTC/USDT"
              short_position_world short_position Hold) as (_ & _ & Hnew).
  destruct (Hnew {[ "id" := "42" ]}) as (sg & cf & pr & Hsg & _ & Hpos & Hsize).
  { vm_compute. reflexivity. }
  rewrite Hsize, Hpos. eexists. rewrite lookup_insert_eq.
  split; [reflexivity|]. split.
  - cbn [side]. vm_compute in Hsg. now inversion Hsg.
  - vm_compute. reflexivity.
Defined.

(** C1, counterexample.  The bot holds a short position on BTC/USDT (one
    unit at 50, order 7).  [execute_trade] on BTC/USDT with a buy signal at
    price 100 returns the new entry order instead of failing, and the
    stored position is now the long one: the short position is gone. *)
Lemma execute_trade_replaces_open_position :
  positions (bot short_position_world) !! "BTC/USDT" = Some short_position /\
  fst (execute_trade example_env "BTC/USDT" short_position_world)
  = Ok (Some {[ "id" := "42" ]}) /\
  exists p,
    positions (bot (snd (execute_trade example_env "BTC/USDT"
                           short_position_world))) !! "BTC/USDT" = Some p /\
    side p = buy /\ (amount p == 1 # 10)%Q /\ (entry_price p == 100)%Q /\
    order_id p = Some "42" /\
    p <> short_position.
Proof.
  split; [vm_compute; reflexivity|].
  split; [vm_compute; reflexivity|].
  eexists. split; [vm_compute; reflexivity|].
  split; [reflexivity|]. split; [reflexivity|]. split; [reflexivity|].
  split; [reflexivity|]. discriminate.
Qed.

(** ** Quotes and sizing *)

(** Without a usable quote (the fetch failed, or the last price is missing,
    [None] or zero) [execute_trade] stops before any order. *)
Lemma execute_trade_no_quote (env : Env) (symbol : string) (w : World) :
  py_truthy (quoted_price env symbol) = false ->
  execute_trade env symbol w = (Ok None, with_bot (roll_over env) w).
Proof.
  intros Hq. rewrite execute_trade_eq. cbn zeta.
  destruct (negb _); [reflexivity|].
  destruct (simple_strategy env symbol) as [signal confidence].
  destruct (_ || _); [reflexivity|].
  destruct (quoted_price env symbol) as [|price]; [reflexivity|].
  cbn [py_truthy] in Hq. apply negb_false_iff in Hq. now rewrite Hq.
Qed.

(** C4, as amended.  When the quote is unavailable (the ticker fetch
    raises, or the ticker has no last price, or a last price of [None] or
    of zero), [execute_trade] returns [None], sends no order and leaves the
    ledger as it is.  When the risk gate allows, the signal is a buy or a
    sell with confidence at least 0.3 and the quoted price is positive, the
    entry order is a market order for trade_amount / price; the exit orders
    and the stored position carry the same quantity. *)
Theorem execute_trade_quote (env : Env) (symbol : string) (w : World) :
  let r := fst (execute_trade env symbol w) in
  let w' := snd (execute_trade env symbol w) in
  ((exists e, fetch_ticker env symbol = Raise e) \/
   (exists t, fetch_ticker env symbol = Ok t /\
      (t !! "last" = None \/ t !! "last" = Some PyNone \/
       exists q, t !! "last" = Some (PyNum q) /\ (q == 0)%Q)) ->
   r = Ok None /\ sent w' = sent w /\
   positions (bot w') = positions (bot w)) /\
  (forall signal confidence price,
     fst (check_risk_management env w) = Ok true ->
     simple_strategy env symbol = (signal, confidence) ->
     signal <> hold ->
     (3 # 10 <= confidence)%Q ->
     quoted_price env symbol = PyNum price ->
     (0 < price)%Q ->
     let amt := (trade_amount (bot w) / price)%Q in
     (exists exits,
        sent w' = (exits ++ mkRequest symbol market signal amt None None
                     :: sent w)%list /\
        Forall (fun req => o_amount req = amt) exits) /\
     (forall order, r = Ok (Some order) ->
        exists p, positions (bot w') !! symbol = Some p /\
                  amount p = amt /\ entry_price p = price)).
Proof.
  intros r w'. subst r w'. split.
  - intros Hq.
    assert (Hfalsy : py_truthy (quoted_price env symbol) = false).
    { unfold quoted_price, get_ticker, dict_get.
      destruct Hq as [[e ->] | (t & -> & Hlast)]; cbn [rcatch].
      - rewrite lookup_empty. cbn. reflexivity.
      - destruct Hlast as [-> | [-> | (q & -> & Hz)]];
          cbn [py_truthy]; try reflexivity.
        apply Qeq_bool_iff in Hz. now rewrite Hz. }
    rewrite (execute_trade_no_quote env symbol w Hfalsy).
    cbn [fst snd with_bot bot sent]. rewrite positions_roll_over. auto.
  - intros signal confidence price Hrisk Hsignal Hdir Hconf Hquote Hprice amt.
    assert (Hnz : ~ (price == 0)%Q) by lra.
    rewrite (execute_trade_sized env symbol w signal confidence price
               Hrisk Hsignal Hdir Hconf Hquote Hnz).
    cbn zeta. fold amt. unfold entry_request.
    destruct (dict_truthy _); cbn [fst snd bot sent set_positions positions].
    + split.
      * unfold exit_log. destruct (create_order env _ _).
        -- exists [take_profit_request (bot w) symbol signal price amt;
                   stop_request (bot w) symbol signal price amt].
           split; [reflexivity|]. repeat constructor.
        -- exists [stop_request (bot w) symbol signal price amt].
           split; [reflexivity|]. repeat constructor.
      * intros order _. eexists. rewrite lookup_insert_eq.
        split; [reflexivity|]. split; reflexivity.
    + split; [|intros order Ho; discriminate].
      exists []. split; [reflexivity | constructor].
Qed.

Lemma execute_trade_quote_witness :
  (fst (execute_trade ticker_failure_env "BTC/USDT" example_world) = Ok None /\
   sent (snd (execute_trade ticker_failure_env "BTC/USDT" example_world))
   = []) /\
  exists p,
    positions (bot (snd (execute_trade example_env "BTC/USDT" example_world)))
      !! "BTC/USDT" = Some p /\
    (amount p == 1 # 10)%Q.
Proof.
  split.
  - destruct (execute_trade_quote ticker_failure_env "BTC/USDT" example_world)
      as [Hnone _].
    destruct Hnone as (Hr & Hlog & _).
    + left. exists ExchangeError. reflexivity.
    + split; [exact Hr | exact Hlog].
  - destruct (execute_trade_quote example_env "BTC/USDT" example_world)
      as [_ Hsized].
    assert (Hsignal : simple_strategy example_env "BTC/USDT"
                      = (buy, 3000000 # 5020000))
      by (vm_compute; reflexivity).
    assert (Hdir : buy <> hold) by discriminate.
    assert (Hconf : (3 # 10 <= 3000000 # 5020000)%Q)
      by (vm_compute; discriminate).
    assert (Hprice : (0 < 100)%Q) by reflexivity.
    destruct (Hsized buy (3000000 # 5020000) 100%Q eq_refl Hsignal Hdir Hconf
                eq_refl Hprice) as [_ Hpos].
    destruct (Hpos {[ "id" := "42" ]}) as (p & Hp & Hamt & _).
    { vm_compute. reflexivity. }
    exists p. split; [exact Hp|]. rewrite Hamt. vm_compute. reflexivity.
Defined.

(** C4, counterexample.  With a quoted last price of -1 (and the risk gate
    and the signal in favour) [execute_trade] does not stop: it returns the
    entry order, sends three orders and stores a position of quantity -10 at
    entry price -1. *)
Lemma execute_trade_trades_on_negative_quote :
  quoted_price negative_quote_env "BTC/USDT" = PyNum (-1) /\
  fst (execute_trade negative_quote_env "BTC/USDT" example_world)
  = Ok (Some {[ "id" := "42" ]}) /\
  length (sent (snd (execute_trade negative_quote_env "BTC/USDT"
                       example_world))) = 3%nat /\
  exists p,
    positions (bot (snd (execute_trade negative_quote_env "BTC/USDT"
                           example_world))) !! "BTC/USDT" = Some p /\
    (amount p == -10)%Q /\ (entry_price p == -1)%Q.
Proof.
  split; [vm_compute; reflexivity|].
  split; [vm_compute; reflexivity|].
  split; [vm_compute; reflexivity|].
  eexists. split; [vm_compute; reflexivity|].
  split; reflexivity.
Qed.

(** Inside a running event loop [asyncio.run] raises in [simple_strategy],
    the signal is [hold], and [execute_trade] never trades. *)
Lemma simple_strategy_loop_running (env : Env) (symbol : string) :
  loop_running env = true -> simple_strategy env symbol = (hold, 0%Q).
Proof.
  intros Hloop. unfold simple_strategy, asyncio_run. now rewrite Hloop.
Qed.

Lemma execute_trade_loop_running (env : Env) (symbol : string) (w : World) :
  loop_running env = true ->
  execute_trade env symbol w = (Ok None, with_bot (roll_over env) w).
Proof.
  intros Hloop. rewrite execute_trade_eq. cbn zeta.
  rewrite (simple_strategy_loop_running env symbol Hloop).
  now destruct (negb _).
Qed.

(** ** The ledger invariant *)

(** No operation changes the configured trade amount. *)
Lemma run_trade_amount (env : Env) (op : operation) (w : World) :
  trade_amount (bot (run env op w)) = trade_amount (bot w).
Proof.
  destruct op as [|symbol|symbol sd amt ty|symbol sd entry amt| | |];
    cbn [run].
  - rewrite check_risk_management_eq. cbn. apply trade_amount_roll_over.
  - rewrite execute_trade_eq. cbn zeta.
    destruct (negb _); [cbn; apply trade_amount_roll_over|].
    destruct (simple_strategy env symbol) as [signal confidence].
    destruct (_ || _); [cbn; apply trade_amount_roll_over|].
    destruct (quoted_price env symbol) as [|price];
      [cbn; apply trade_amount_roll_over|].
    destruct (Qeq_bool price 0); [cbn; apply trade_amount_roll_over|].
    destruct (dict_truthy _); cbn; apply trade_amount_roll_over.
  - destruct sd; try reflexivity;
      (rewrite place_order_eq by discriminate; reflexivity).
  - destruct (set_stop_loss_take_profit_eq env symbol sd entry amt w)
      as [r ->]. reflexivity.
  - reflexivity.
  - reflexivity.
  - reflexivity.
Qed.

(** An operation leaves the ledger alone, unless it is [execute_trade]
    storing a position sized from a non-zero quoted price. *)
Lemma run_positions (env : Env) (op : operation) (w : World) :
  positions (bot (run env op w)) = positions (bot w) \/
  exists symbol signal price ts oid,
    quoted_price env symbol = PyNum price /\ ~ (price == 0)%Q /\
    positions (bot (run env op w)) =
      <[symbol := mkPosition signal (trade_amount (bot w) / price)%Q price
                    ts oid]> (positions (bot w)).
Proof.
  destruct op as [|symbol|symbol sd amt ty|symbol sd entry amt| | |];
    cbn [run].
  - left. rewrite check_risk_management_eq. cbn. apply positions_roll_over.
  - destruct (execute_trade_cases env symbol w)
      as [(_ & Hpos & _)
         | (sg & cf & pr & o & _ & _ & _ & _ & Hq & Hnz & _ & _ & _ & Hpos & _)].
    + now left.
    + right. exists symbol, sg, pr, (now_iso env), (o !! "id"). auto.
  - left. destruct sd; try reflexivity;
      (rewrite place_order_eq by discriminate; reflexivity).
  - left. destruct (set_stop_loss_take_profit_eq env symbol sd entry amt w)
      as [r ->]. reflexivity.
  - now left.
  - now left.
  - now left.
Qed.

Lemma run_ledger_invariant (env : Env) (op : operation) (w : World) :
  (0 < trade_amount (bot w))%Q ->
  quotes_nonnegative env ->
  ledger_invariant (bot w) -> ledger_invariant (bot (run env op w)).
Proof.
  intros Hamount Hquotes [_ Hinv].
  split; [apply NoDup_fst_map_to_list|].
  destruct (run_positions env op w)
    as [-> | (symbol & sg & pr & ts & oid & Hq & Hnz & ->)];
    [exact Hinv|].
  intros s p Hlookup.
  destruct (decide (symbol = s)) as [->|Hne].
  - rewrite lookup_insert_eq in Hlookup. inversion Hlookup; subst p.
    cbn [amount entry_price].
    assert (Hpos : (0 < pr)%Q).
    { specialize (Hquotes s pr Hq).
      destruct (Qle_lt_or_eq _ _ Hquotes) as [Hlt | Heq]; [exact Hlt|].
      exfalso. apply Hnz. now symmetry. }
    split; [|exact Hpos].
    apply Qlt_shift_div_l; [exact Hpos|]. lra.
  - rewrite lookup_insert_ne in Hlookup by exact Hne.
    exact (Hinv s p Hlookup).
Qed.

(** C5, as amended.  Along any history of operations, the ledger holds at
    most one position per instrument, and every stored position keeps a
    positive quantity and a positive entry price, provided the configured
    trade amount is positive and the exchange never quotes a negative last
    price. *)
Theorem ledger_invariant_preserved
    (steps : list (Env * operation)) (w : World)
    (Hamount : (0 < trade_amount (bot w))%Q)
    (Hquotes : Forall (fun step => quotes_nonnegative (fst step)) steps)
    (Hinv : ledger_invariant (bot w)) :
  ledger_invariant (bot (run_all steps w)).
Proof.
  revert w Hamount Hinv.
  induction Hquotes as [|[env op] rest Hq _ IH]; intros w Hamount Hinv.
  - exact Hinv.
  - cbn [run_all]. apply IH.
    + now rewrite run_trade_amount.
    + now apply run_ledger_invariant.
Qed.

Lemma example_world_ledger_invariant : ledger_invariant (bot example_world).
Proof.
  split.
  - apply NoDup_fst_map_to_list.
  - intros symbol p H. cbn in H. rewrite lookup_empty in H. discriminate.
Qed.

Lemma ledger_invariant_preserved_witness :
  ledger_invariant
    (bot (run_all [(example_env, op_execute_trade "BTC/USDT");
                   (example_env, op_check_risk_management);
                   (example_env, op_execute_trade "ETH/USDT");
                   (example_env, op_get_status)] example_world)).
Proof.
  assert (Hq : quotes_nonnegative example_env).
  { intros symbol q H. vm_compute in H. inversion H. discriminate. }
  apply ledger_invariant_preserved.
  - reflexivity.
  - repeat constructor; exact Hq.
  - exact example_world_ledger_invariant.
Defined.

(** C5, counterexample.  From the empty ledger, one [execute_trade] against
    an exchange quoting -1 stores a position of negative quantity and
    negative entry price: the invariant holds before and fails after. *)
Lemma negative_quote_breaks_ledger_invariant :
  ledger_invariant (bot example_world) /\
  ~ ledger_invariant
      (bot (run negative_quote_env (op_execute_trade "BTC/USDT")
              example_world)).
Proof.
  split; [exact example_world_ledger_invariant|].
  intros [_ Hinv].
  destruct (Hinv "BTC/USDT"
              (mkPosition buy (10 / -1) (-1) "2024-01-01T00:00:00"
                 (Some "42"))) as [Hamt _].
  - vm_compute. reflexivity.
  - vm_compute in Hamt. discriminate.
Qed.

(** * Further properties of the engine *)

(** ** Moving averages *)

Lemma fold_left_Qplus_acc (xs : list Q) (a : Q) :
  (fold_left Qplus xs a == a + fold_left Qplus xs 0)%Q.
Proof.
  revert a. induction xs as [|x xs IH]; intros a; cbn [fold_left].
  - lra.
  - rewrite (IH (a + x)%Q), (IH (0 + x)%Q). lra.
Qed.

Lemma py_sum_cons (x : Q) (xs : list Q) :
  (py_sum (x :: xs) == x + py_sum xs)%Q.
Proof.
  unfold py_sum. cbn [fold_left]. rewrite fold_left_Qplus_acc. lra.
Qed.

Lemma inject_nat_pos (n : nat) : (0 < n)%nat -> (0 < inject_Z (Z.of_nat n))%Q.
Proof.
  intros H. change 0%Q with (inject_Z 0). rewrite <- Zlt_Qlt. lia.
Qed.

Lemma Forall_py_last_n {A} (P : A -> Prop) (n : nat) (xs : list A) :
  Forall P xs -> Forall P (py_last_n n xs).
Proof.
  intros H. unfold py_last_n. destruct n; [exact H|].
  now apply Forall_drop.
Qed.

Lemma length_py_last_n {A} (n : nat) (xs : list A) :
  (0 < n <= length xs)%nat -> length (py_last_n n xs) = n.
Proof.
  intros [Hpos Hle]. unfold py_last_n. destruct n; [lia|].
  rewrite length_skipn. lia.
Qed.

(** The shape of a defined average: the period is positive, the history is
    long enough, and the value is the sum of the window over the period. *)
Lemma calculate_sma_Some (prices : list Q) (period : nat) (m : Q) :
  calculate_sma prices period = Ok (Some m) ->
  (0 < period <= length prices)%nat /\
  m = (py_sum (py_last_n period prices) / inject_Z (Z.of_nat period))%Q.
Proof.
  intros H. pose proof (calculate_sma_Some_length _ _ _ H) as Hlen.
  unfold calculate_sma in H.
  destruct (length prices <? period)%nat; [discriminate|].
  unfold py_div in H.
  destruct (Qeq_bool (inject_Z (Z.of_nat period)) 0) eqn:E;
    cbn [rbind] in H; [discriminate|].
  inversion H; subst m. split; [|reflexivity]. split; [|exact Hlen].
  destruct period; [|lia]. cbn in E. discriminate.
Qed.

(** X2.  Only the last [period] prices count: whatever precedes a full
    window, the average is the sum of the window over the period. *)
Theorem calculate_sma_window_only
    (older window : list Q) (period : nat)
    (Hperiod : (0 < period)%nat) (Hwindow : length window = period) :
  calculate_sma (older ++ window)%list period
  = Ok (Some (py_sum window / inject_Z (Z.of_nat period))%Q) /\
  calculate_sma (older ++ window)%list period = calculate_sma window period.
Proof.
  assert (Hgen : forall pre : list Q,
    calculate_sma (pre ++ window)%list period
    = Ok (Some (py_sum window / inject_Z (Z.of_nat period))%Q)).
  { intros pre. unfold calculate_sma.
    assert (Hlen : (length (pre ++ window) <? period)%nat = false).
    { apply Nat.ltb_ge. rewrite length_app. lia. }
    rewrite Hlen.
    assert (Hlast : py_last_n period (pre ++ window) = window).
    { unfold py_last_n. destruct period; [lia|].
      rewrite length_app, Hwindow.
      replace (length pre + S period - S period)%nat with (length pre) by lia.
      apply drop_app_length. }
    rewrite Hlast. unfold py_div.
    assert (Hnz : Qeq_bool (inject_Z (Z.of_nat period)) 0 = false).
    { apply Qeq_bool_false. pose proof (inject_nat_pos period Hperiod). lra. }
    rewrite Hnz. reflexivity. }
  split; [apply Hgen|]. rewrite (Hgen older). symmetry. apply (Hgen []).
Qed.

Lemma calculate_sma_window_only_witness :
  calculate_sma ([7; 9]%Q ++ [1; 3]%Q)%list 2 = calculate_sma [1; 3]%Q 2.
Proof.
  apply (calculate_sma_window_only [7; 9]%Q [1; 3]%Q 2); [lia | reflexivity].
Defined.

(** ** The strategy on degenerate histories *)

Lemma calculate_sma_short (prices : list Q) (period : nat) :
  (length prices < period)%nat -> calculate_sma prices period = Ok None.
Proof.
  intros H. unfold calculate_sma. apply Nat.ltb_lt in H. now rewrite H.
Qed.

Lemma closing_prices_malformed (ohlcv : list Candle) (candle : Candle) :
  candle ∈ ohlcv -> (length candle < 5)%nat ->
  exists e, closing_prices ohlcv = Raise e.
Proof.
  intros Hin Hshort. induction ohlcv as [|other rest IH].
  - now apply elem_of_nil in Hin.
  - cbn [closing_prices]. apply elem_of_cons in Hin as [<- | Hin].
    + unfold py_index.
      rewrite (proj2 (lookup_ge_None candle 4)) by lia. eauto.
    + destruct (py_index other 4); cbn [rbind]; eauto.
      destruct (IH Hin) as [e ->]. cbn [rbind]. eauto.
Qed.

(** The strategy either holds with confidence 0, or it found both
    averages, one strict crossover and a non-zero divisor. *)
Lemma simple_strategy_cases (env : Env) (symbol : string) :
  simple_strategy env symbol = (hold, 0%Q) \/
  exists closes s l c,
    loop_running env = false /\
    closing_prices (get_ohlcv env symbol "1h" 50) = Ok closes /\
    calculate_sma closes 20 = Ok (Some s) /\
    calculate_sma closes 50 = Ok (Some l) /\
    last closes = Some c /\
    (((l < s)%Q /\ (s < c)%Q /\ ~ (l == 0)%Q /\
      simple_strategy env symbol = (buy, py_min ((s - l) / l * 100) 1)) \/
     ((s < l)%Q /\ (c < s)%Q /\ ~ (s == 0)%Q /\
      simple_strategy env symbol = (sell, py_min ((l - s) / s * 100) 1))).
Proof.
  unfold simple_strategy, asyncio_run.
  destruct (loop_running env); [now left|]. cbn [rbind].
  destruct (is_nil _); [now left|].
  destruct (closing_prices _) as [closes|e] eqn:Hcloses; [|now left].
  cbn [rbind].
  destruct (calculate_sma closes 20) as [[s|]|e] eqn:Hs; cbn [rbind];
    [| destruct (calculate_sma closes 50) as [[l|]|e]; now left | now left].
  destruct (calculate_sma closes 50) as [[l|]|e] eqn:Hl; cbn [rbind];
    [| now left | now left].
  unfold py_last. destruct (last closes) as [c|] eqn:Hc; cbn [rbind];
    [|now left].
  unfold Qgtb.
  destruct (Qltb l s && Qltb s c) eqn:Ebuy.
  - apply andb_true_iff in Ebuy as [E1 E2]. apply Qltb_lt in E1, E2.
    unfold py_div. destruct (Qeq_bool l 0) eqn:Ez; [now left|].
    apply Qeq_bool_false in Ez. right. exists closes, s, l, c.
    do 5 (split; [first [reflexivity | assumption]|]). left. auto.
  - destruct (Qltb s l && Qltb c s) eqn:Esell; [|now left].
    apply andb_true_iff in Esell as [E1 E2]. apply Qltb_lt in E1, E2.
    unfold py_div. destruct (Qeq_bool s 0) eqn:Ez; [now left|].
    apply Qeq_bool_false in Ez. right. exists closes, s, l, c.
    do 5 (split; [first [reflexivity | assumption]|]). right. auto.
Qed.

(** X3.  With fewer than 50 candles (an empty answer and a failed fetch
    included) the strategy holds with confidence 0, whatever the prices. *)
Theorem simple_strategy_short_history
    (env : Env) (symbol : string)
    (Hshort : (length (get_ohlcv env symbol "1h" 50) < 50)%nat) :
  simple_strategy env symbol = (hold, 0%Q).
Proof.
  destruct (simple_strategy_cases env symbol)
    as [H | (closes & s & l & c & _ & Hcloses & _ & Hlong & _)]; [exact H|].
  apply closing_prices_length in Hcloses.
  apply calculate_sma_Some_length in Hlong. lia.
Qed.

Lemma simple_strategy_short_history_witness :
  simple_strategy
    (mkEnv (fetch_balance example_env) (fetch_ticker example_env)
       (fun _ _ _ => Raise ExchangeError) (create_order example_env)
       (today example_env) (now_iso example_env) false)
    "BTC/USDT" = (hold, 0%Q).
Proof.
  apply simple_strategy_short_history. cbn. lia.
Defined.

(** X4.  One candle with fewer than five fields is enough for the strategy
    to hold: the [IndexError] on [candle[4]] is swallowed. *)
Theorem simple_strategy_malformed_candle
    (env : Env) (symbol : string) (candle : Candle)
    (Hin : candle ∈ get_ohlcv env symbol "1h" 50)
    (Hshort : (length candle < 5)%nat) :
  simple_strategy env symbol = (hold, 0%Q).
Proof.
  destruct (simple_strategy_cases env symbol)
    as [H | (closes & s & l & c & _ & Hcloses & _)]; [exact H|].
  destruct (closing_prices_malformed _ candle Hin Hshort) as [e He].
  congruence.
Qed.

Lemma simple_strategy_malformed_candle_witness :
  simple_strategy
    (mkEnv (fetch_balance example_env) (fetch_ticker example_env)
       (fun _ _ _ => Ok (rising_history ++ [[0; 1; 2; 3]%Q])%list)
       (create_order example_env)
       (today example_env) (now_iso example_env) false)
    "BTC/USDT" = (hold, 0%Q).
Proof.
  apply (simple_strategy_malformed_candle _ _ [0; 1; 2; 3]%Q).
  - cbn [get_ohlcv fetch_ohlcv rcatch]. apply elem_of_app. right.
    apply list_elem_of_singleton. reflexivity.
  - cbn. lia.
Defined.

Lemma py_min_le_r (a b : Q) : (py_min a b <= b)%Q.
Proof. rewrite py_min_Qmin. apply Q.le_min_r. Qed.

Lemma py_min_pos (a b : Q) : (0 < a)%Q -> (0 < b)%Q -> (0 < py_min a b)%Q.
Proof. intros Ha Hb. unfold py_min. now destruct (Qltb b a). Qed.

(** X5.  The confidence never exceeds 1, and a [hold] always comes with
    confidence exactly 0. *)
Theorem simple_strategy_confidence_at_most_1 (env : Env) (symbol : string) :
  (snd (simple_strategy env symbol) <= 1)%Q /\
  (fst (simple_strategy env symbol) = hold ->
   snd (simple_strategy env symbol) = 0%Q).
Proof.
  destruct (simple_strategy_cases env symbol)
    as [-> | (closes & s & l & c & _ & _ & _ & _ & _
              & [(_ & _ & _ & ->) | (_ & _ & _ & ->)])];
    cbn [fst snd]; split; try discriminate; try reflexivity;
    apply py_min_le_r.
Qed.

Lemma py_sum_pos (xs : list Q) :
  Forall (fun p => (0 < p)%Q) xs -> xs <> [] -> (0 < py_sum xs)%Q.
Proof.
  intros H. induction H as [|x xs Hx _ IH]; [congruence|]. intros _.
  rewrite py_sum_cons. destruct xs as [|y ys].
  - unfold py_sum. cbn [fold_left]. lra.
  - assert (0 < py_sum (y :: ys))%Q by (apply IH; discriminate). lra.
Qed.

Lemma calculate_sma_pos (prices : list Q) (period : nat) (m : Q) :
  calculate_sma prices period = Ok (Some m) ->
  Forall (fun p => (0 < p)%Q) prices -> (0 < m)%Q.
Proof.
  intros Hsma Hpos. destruct (calculate_sma_Some _ _ _ Hsma) as [Hperiod ->].
  apply Qlt_shift_div_l; [apply inject_nat_pos; lia|].
  rewrite Qmult_0_l. apply py_sum_pos.
  - now apply Forall_py_last_n.
  - intros Hnil. apply (f_equal (@length _)) in Hnil.
    rewrite (length_py_last_n period prices Hperiod) in Hnil.
    cbn in Hnil. lia.
Qed.

(** X6.  When every close is positive the confidence is in [0, 1], and a
    buy or a sell carries a strictly positive confidence. *)
Theorem simple_strategy_positive_prices
    (env : Env) (symbol : string) (closes : list Q)
    (Hcloses : closing_prices (get_ohlcv env symbol "1h" 50) = Ok closes)
    (Hpos : Forall (fun p => (0 < p)%Q) closes) :
  (0 <= snd (simple_strategy env symbol))%Q /\
  (snd (simple_strategy env symbol) <= 1)%Q /\
  (fst (simple_strategy env symbol) <> hold ->
   (0 < snd (simple_strategy env symbol))%Q).
Proof.
  destruct (simple_strategy_cases env symbol)
    as [-> | (closes' & s & l & c & _ & Hcloses' & Hs & Hl & _ & Hcase)].
  { cbn [fst snd]. repeat split; try discriminate. congruence. }
  rewrite Hcloses in Hcloses'. inversion Hcloses'; subst closes'.
  pose proof (calculate_sma_pos _ _ _ Hs Hpos) as Hspos.
  pose proof (calculate_sma_pos _ _ _ Hl Hpos) as Hlpos.
  assert (Hconf : (0 < snd (simple_strategy env symbol))%Q).
  { destruct Hcase as [(Hls & _ & _ & ->) | (Hsl & _ & _ & ->)];
      cbn [snd]; (apply py_min_pos; [|reflexivity]).
    - apply Qmult_lt_0_compat; [|reflexivity].
      apply Qlt_shift_div_l; [exact Hlpos|]. lra.
    - apply Qmult_lt_0_compat; [|reflexivity].
      apply Qlt_shift_div_l; [exact Hspos|]. lra. }
  split; [apply Qlt_le_weak, Hconf|]. split; [|intros _; exact Hconf].
  destruct Hcase as [(_ & _ & _ & ->) | (_ & _ & _ & ->)];
    cbn [snd]; apply py_min_le_r.
Qed.

Lemma simple_strategy_positive_prices_witness :
  (0 < snd (simple_strategy example_env "BTC/USDT"))%Q.
Proof.
  assert (Hpos : Forall (fun p => (0 < p)%Q)
            (repeat 100%Q 49 ++ [120%Q])%list).
  { apply Forall_app. split.
    - apply Forall_forall. intros x Hx. apply list_elem_of_In, repeat_spec in Hx. now subst x.
    - repeat constructor. }
  destruct (simple_strategy_positive_prices example_env "BTC/USDT"
              (repeat 100%Q 49 ++ [120%Q])%list eq_refl Hpos)
    as (_ & _ & Hbuy).
  apply Hbuy. vm_compute. discriminate.
Defined.

(** ** The risk gate, check by check *)

Lemma with_bot_id (w : World) : with_bot (fun b => b) w = w.
Proof. now destruct w. Qed.

Lemma roll_over_idempotent (env : Env) (b : Bot) :
  roll_over env (roll_over env b) = roll_over env b.
Proof.
  unfold roll_over at 2 3.
  destruct (today env >? last_reset_date b) eqn:E; [|unfold roll_over; now rewrite E].
  apply roll_over_same_day. cbn. lia.
Qed.

(** X8.  On the day of the last reset, a daily PnL at or below the negated
    loss limit makes the gate answer [False] whatever the balance and the
    ledger, and nothing in the state changes. *)
Theorem check_risk_management_loss_limit
    (env : Env) (w : World)
    (Hday : today env <= last_reset_date (bot w))
    (Hloss : (daily_pnl (bot w) <= - max_daily_loss (bot w))%Q) :
  check_risk_management env w = (Ok false, w).
Proof.
  rewrite check_risk_management_eq.
  assert (Hw : with_bot (roll_over env) w = w).
  { destruct w as [b log]. unfold with_bot. cbn [bot sent] in *.
    now rewrite roll_over_same_day. }
  rewrite Hw, (roll_over_same_day env (bot w) Hday).
  unfold loss_limit_reached. apply Qle_bool_iff in Hloss. now rewrite Hloss.
Qed.

Lemma check_risk_management_loss_limit_witness :
  check_risk_management example_env
    (mkWorld (set_daily_pnl (-150)%Q example_bot) [])
  = (Ok false, mkWorld (set_daily_pnl (-150)%Q example_bot) []).
Proof.
  apply check_risk_management_loss_limit.
  - vm_compute. discriminate.
  - vm_compute. discriminate.
Defined.

Lemma positions_full_denies (env : Env) (w : World) :
  max_positions (bot w) <= Z.of_nat (size (positions (bot w))) ->
  fst (check_risk_management env w) = Ok false.
Proof.
  intros Hfull. rewrite check_risk_management_eq. cbn [fst].
  assert (Hp : positions_full (roll_over env (bot w)) = true).
  { unfold positions_full, roll_over.
    destruct (today env >? last_reset_date (bot w)); cbn;
      apply Z.geb_le; lia. }
  rewrite Hp, orb_true_r. reflexivity.
Qed.

(** X9.  With as many recorded positions as [max_positions] (or more) the
    gate answers [False], whatever the day, the PnL and the balance. *)
Theorem check_risk_management_positions_full
    (env : Env) (w : World)
    (Hfull : max_positions (bot w) <= Z.of_nat (size (positions (bot w)))) :
  fst (check_risk_management env w) = Ok false.
Proof. exact (positions_full_denies env w Hfull). Qed.

Lemma check_risk_management_positions_full_witness :
  fst (check_risk_management example_env
         (mkWorld (mkBot "binance" true "BTC/USDT" 10 2 5 1 100 50 false
                     {[ "BTC/USDT" := short_position ]} 0 100) []))
  = Ok false.
Proof.
  apply check_risk_management_positions_full. vm_compute. discriminate.
Defined.

(** X10.  Reading the fetched balance: a balance without a ['USDT'] entry,
    or whose entry has no ['free'] field, counts as a free balance of 0 and
    is denied under a positive minimum; a ['free'] field of [None] makes the
    comparison raise, so the balance check is skipped and the answer is left
    to the loss and position-count checks. *)
Theorem check_risk_management_balance_lookup
    (env : Env) (w : World) (balance : Balance)
    (Hloop : loop_running env = false)
    (Hfetch : fetch_balance env = Ok balance) :
  ((balance !! "USDT" = None \/
    exists info, balance !! "USDT" = Some info /\ info !! "free" = None) ->
   (0 < min_balance (bot w))%Q ->
   fst (check_risk_management env w) = Ok false) /\
  ((exists info, balance !! "USDT" = Some info /\
                 info !! "free" = Some PyNone) ->
   fst (check_risk_management env w)
   = Ok (negb (loss_limit_reached (roll_over env (bot w))
               || positions_full (roll_over env (bot w))))).
Proof.
  rewrite check_risk_management_eq. cbn [fst].
  assert (Hmin : min_balance (roll_over env (bot w)) = min_balance (bot w)).
  { unfold roll_over. now destruct (today env >? last_reset_date (bot w)). }
  unfold balance_too_low, asyncio_run, get_balance.
  rewrite Hloop, Hfetch, Hmin. cbn [rcatch rbind]. unfold dict_get. split.
  - intros Hmissing Hpos.
    assert (Hlow : Qltb 0 (min_balance (bot w)) = true) by now apply Qltb_lt.
    destruct Hmissing as [-> | (info & -> & ->)].
    + rewrite lookup_empty. cbn [py_lt rcatch]. rewrite Hlow.
      now rewrite orb_true_r.
    + cbn [py_lt rcatch]. rewrite Hlow. now rewrite orb_true_r.
  - intros (info & -> & ->). cbn [py_lt rcatch]. now rewrite orb_false_r.
Qed.

Lemma check_risk_management_balance_lookup_witness :
  fst (check_risk_management no_usdt_env example_world) = Ok false /\
  fst (check_risk_management none_free_env example_world) = Ok true.
Proof.
  split.
  - refine (proj1 (check_risk_management_balance_lookup no_usdt_env
                     example_world _ eq_refl eq_refl) _ _).
    + left. vm_compute. reflexivity.
    + reflexivity.
  - rewrite (proj2 (check_risk_management_balance_lookup none_free_env
                      example_world _ eq_refl eq_refl)).
    + vm_compute. reflexivity.
    + eexists. split; vm_compute; reflexivity.
Defined.

(** X11.  Asking the gate twice against the same exchange and clock
    changes nothing more and gives the same answer as asking once. *)
Theorem check_risk_management_idempotent (env : Env) (w : World) :
  check_risk_management env (snd (check_risk_management env w))
  = check_risk_management env w.
Proof.
  rewrite !check_risk_management_eq. cbn [snd].
  destruct w as [b log]. unfold with_bot. cbn [bot sent].
  now rewrite !roll_over_idempotent.
Qed.

Lemma same_settings_roll_over (env : Env) (b : Bot) :
  same_settings b (roll_over env b).
Proof.
  unfold roll_over.
  destruct (today env >? last_reset_date b); repeat split.
Qed.

(** X12.  The gate touches the daily PnL and the reset date only: the
    settings, the trading flag, the ledger and the order log stay; the reset
    date becomes the later of itself and today (it never moves back); and
    the daily PnL is either kept or set to 0. *)
Theorem check_risk_management_frame (env : Env) (w : World) :
  let w' := snd (check_risk_management env w) in
  same_settings (bot w) (bot w') /\
  is_trading (bot w') = is_trading (bot w) /\
  positions (bot w') = positions (bot w) /\
  sent w' = sent w /\
  last_reset_date (bot w') = Z.max (last_reset_date (bot w)) (today env) /\
  (daily_pnl (bot w') = daily_pnl (bot w) \/ daily_pnl (bot w') = 0%Q).
Proof.
  intros w'. subst w'. rewrite check_risk_management_eq.
  cbn [snd with_bot bot sent].
  split; [apply same_settings_roll_over|].
  unfold roll_over.
  destruct (today env >? last_reset_date (bot w)) eqn:E; cbn.
  - rewrite Z.gtb_ltb in E. apply Z.ltb_lt in E.
    repeat split; try reflexivity; [lia | now right].
  - rewrite Z.gtb_ltb in E. apply Z.ltb_ge in E.
    repeat split; try reflexivity; [lia | now left].
Qed.

(** ** Orders *)


(** X14.  With a positive entry price and positive stop-loss and
    take-profit percentages, [set_stop_loss_take_profit] sends one or two
    orders, all for the given symbol and amount and on the side opposite to
    the entry, and each on the protective side of the entry price: for a
    buy the stop below and the take-profit above, for a sell the stop above
    and the take-profit below. *)
Theorem set_stop_loss_take_profit_protects
    (env : Env) (symbol : string) (sd : Signal) (entry amt : Q) (w : World)
    (Hentry : (0 < entry)%Q)
    (Hsl : (0 < stop_loss_percent (bot w))%Q)
    (Htp : (0 < take_profit_percent (bot w))%Q) :
  let w' := snd (set_stop_loss_take_profit env symbol sd entry amt w) in
  bot w' = bot w /\
  exists new,
    sent w' = (new ++ sent w)%list /\
    (1 <= length new <= 2)%nat /\
    Forall (fun req =>
              o_symbol req = symbol /\ o_side req = exit_side sd /\
              o_amount req = amt /\ protective sd entry req) new.
Proof.
  intros w'. subst w'.
  destruct (set_stop_loss_take_profit_eq env symbol sd entry amt w) as [r ->].
  cbn [snd bot sent]. split; [reflexivity|].
  assert (Hup : forall pct : Q, (0 < pct)%Q ->
                  (entry < entry * (1 + pct / 100))%Q).
  { intros pct Hpct.
    assert (E : (entry * (1 + pct / 100) == entry + entry * pct / 100)%Q)
      by (field; discriminate).
    rewrite E.
    assert (0 < entry * pct / 100)%Q.
    { apply Qlt_shift_div_l; [reflexivity|]. rewrite Qmult_0_l.
      now apply Qmult_lt_0_compat. }
    lra. }
  assert (Hdown : forall pct : Q, (0 < pct)%Q ->
                    (entry * (1 - pct / 100) < entry)%Q).
  { intros pct Hpct.
    assert (E : (entry * (1 - pct / 100) == entry - entry * pct / 100)%Q)
      by (field; discriminate).
    rewrite E.
    assert (0 < entry * pct / 100)%Q.
    { apply Qlt_shift_div_l; [reflexivity|]. rewrite Qmult_0_l.
      now apply Qmult_lt_0_compat. }
    lra. }
  assert (Hstop : protective sd entry (stop_request (bot w) symbol sd entry amt)).
  { unfold protective, stop_request. cbn. destruct sd; auto. }
  assert (Hlimit : protective sd entry
                     (take_profit_request (bot w) symbol sd entry amt)).
  { unfold protective, take_profit_request. cbn. destruct sd; auto. }
  unfold exit_log. destruct (create_order env (sent w) _).
  - exists [take_profit_request (bot w) symbol sd entry amt;
            stop_request (bot w) symbol sd entry amt].
    split; [reflexivity|]. split; [cbn; lia|].
    repeat constructor; assumption.
  - exists [stop_request (bot w) symbol sd entry amt].
    split; [reflexivity|]. split; [cbn; lia|].
    repeat constructor; assumption.
Qed.

Lemma set_stop_loss_take_profit_protects_witness :
  exists new,
    sent (snd (set_stop_loss_take_profit example_env "BTC/USDT" sell 100
                 (1 # 10) example_world)) = (new ++ [])%list /\
    Forall (protective sell 100) new.
Proof.
  destruct (set_stop_loss_take_profit_protects example_env "BTC/USDT" sell
              100 (1 # 10) example_world)
    as (_ & new & Hlog & _ & Hall); try reflexivity.
  exists new. split; [exact Hlog|].
  eapply Forall_impl; [exact Hall|]. intros req (_ & _ & _ & H). exact H.
Defined.

(** ** One trade attempt *)

(** The branches of [execute_trade], one goal per way out. *)
Ltac trade_branches env symbol :=
  rewrite execute_trade_eq; cbn zeta;
  destruct (negb _) eqn:?;
    [| destruct (simple_strategy env symbol) as [? ?] eqn:?;
       destruct (_ || _) eqn:?;
         [| destruct (quoted_price env symbol) as [|?] eqn:?;
            [| destruct (Qeq_bool _ 0) eqn:?;
               [| destruct (dict_truthy _) eqn:?]]]];
  cbn [fst snd bot sent with_bot].

(** When the gate denies, [execute_trade] stops there. *)
Lemma execute_trade_denied (env : Env) (symbol : string) (w : World) :
  fst (check_risk_management env w) = Ok false ->
  execute_trade env symbol w = (Ok None, with_bot (roll_over env) w).
Proof.
  intros Hdeny. rewrite check_risk_management_eq in Hdeny. cbn [fst] in Hdeny.
  fold (risk_allows env (roll_over env (bot w))) in Hdeny.
  inversion Hdeny as [Hallow]. rewrite execute_trade_eq. cbn zeta.
  unfold with_bot at 1. cbn [bot]. now rewrite Hallow.
Qed.

Lemma roll_over_set_is_trading (env : Env) (flag : bool) (b : Bot) :
  roll_over env (set_is_trading flag b) = set_is_trading flag (roll_over env b).
Proof.
  unfold roll_over. cbn [set_is_trading last_reset_date].
  now destruct (today env >? last_reset_date b).
Qed.

(** X15.  The trading flag plays no part in [execute_trade]: started or
    stopped, the call returns the same result, sends the same orders and
    stores the same position, and it leaves the flag as it found it. *)
Theorem execute_trade_ignores_trading_flag
    (env : Env) (symbol : string) (w : World) (flag : bool) :
  execute_trade env symbol (with_bot (set_is_trading flag) w)
  = (fst (execute_trade env symbol w),
     with_bot (set_is_trading flag) (snd (execute_trade env symbol w))).
Proof.
  rewrite !execute_trade_eq. cbn zeta.
  destruct w as [b log]. unfold with_bot. cbn [bot sent].
  rewrite roll_over_set_is_trading.
  assert (Hrisk : risk_allows env (set_is_trading flag (roll_over env b))
                  = risk_allows env (roll_over env b)) by reflexivity.
  rewrite Hrisk.
  destruct (negb _); [reflexivity|].
  destruct (simple_strategy env symbol) as [signal confidence].
  destruct (_ || _); [reflexivity|].
  destruct (quoted_price env symbol) as [|price]; [reflexivity|].
  destruct (Qeq_bool price 0); [reflexivity|].
  cbn [trade_amount set_is_trading].
  destruct (dict_truthy _); reflexivity.
Qed.

(** X16.  One call of [execute_trade] sends at most three orders, after
    those already in the log, and it sends none unless the gate allows, the
    signal is a buy or a sell of confidence at least 0.3, and the quoted
    price is a non-zero number. *)
Theorem execute_trade_orders_need_signal
    (env : Env) (symbol : string) (w : World) :
  let w' := snd (execute_trade env symbol w) in
  (exists new, sent w' = (new ++ sent w)%list /\ (length new <= 3)%nat) /\
  (sent w' <> sent w ->
   fst (check_risk_management env w) = Ok true /\
   fst (simple_strategy env symbol) <> hold /\
   (3 # 10 <= snd (simple_strategy env symbol))%Q /\
   exists price, quoted_price env symbol = PyNum price /\ ~ (price == 0)%Q).
Proof.
  intros w'. subst w'. rewrite check_risk_management_eq. cbn [fst].
  fold (risk_allows env (roll_over env (bot w))).
  trade_branches env symbol;
    try (split; [exists []; split; [reflexivity | cbn; lia] | congruence]).
  - assert (Hreached :
      Ok (risk_allows env (roll_over env (bot w))) = Ok true /\
      s <> hold /\ (3 # 10 <= q)%Q /\
      exists price, PyNum q0 = PyNum price /\ ~ (price == 0)%Q).
    { match goal with H : negb _ = false |- _ =>
        apply negb_false_iff in H; cbn [bot with_bot] in H; rewrite H end.
      match goal with H : _ || _ = false |- _ =>
        apply orb_false_iff in H as [Hs Hq] end.
      split; [reflexivity|].
      split; [now apply Signal_eqb_hold_false|].
      split; [now apply Qltb_ge|].
      exists q0. split; [reflexivity|]. now apply Qeq_bool_false. }
    split; [|intros _; exact Hreached].
    unfold exit_log. destruct (create_order env (_ :: _) _).
    + eexists [_; _; _]. split; [reflexivity | cbn; lia].
    + eexists [_; _]. split; [reflexivity | cbn; lia].
  - assert (Hreached :
      Ok (risk_allows env (roll_over env (bot w))) = Ok true /\
      s <> hold /\ (3 # 10 <= q)%Q /\
      exists price, PyNum q0 = PyNum price /\ ~ (price == 0)%Q).
    { match goal with H : negb _ = false |- _ =>
        apply negb_false_iff in H; cbn [bot with_bot] in H; rewrite H end.
      match goal with H : _ || _ = false |- _ =>
        apply orb_false_iff in H as [Hs Hq] end.
      split; [reflexivity|].
      split; [now apply Signal_eqb_hold_false|].
      split; [now apply Qltb_ge|].
      exists q0. split; [reflexivity|]. now apply Qeq_bool_false. }
    split; [|intros _; exact Hreached].
    eexists [_]. split; [reflexivity | cbn; lia].
Qed.

(** X17.  Inside a running event loop (how the Telegram handler and the
    scheduler drive the coroutine) the nested [asyncio.run] of the strategy
    raises, the signal is [hold], and [execute_trade] returns [None] without
    sending an order or storing a position. *)
Theorem execute_trade_in_event_loop
    (env : Env) (symbol : string) (w : World)
    (Hloop : loop_running env = true) :
  fst (execute_trade env symbol w) = Ok None /\
  sent (snd (execute_trade env symbol w)) = sent w /\
  positions (bot (snd (execute_trade env symbol w))) = positions (bot w).
Proof.
  rewrite (execute_trade_loop_running env symbol w Hloop).
  cbn [fst snd with_bot bot sent]. now rewrite positions_roll_over.
Qed.

Lemma execute_trade_in_event_loop_witness :
  fst (execute_trade
         (mkEnv (fetch_balance example_env) (fetch_ticker example_env)
            (fetch_ohlcv example_env) (create_order example_env)
            (today example_env) (now_iso example_env) true)
         "BTC/USDT" example_world) = Ok None.
Proof.
  apply execute_trade_in_event_loop. reflexivity.
Defined.

(** ** Histories of operations *)

Lemma same_settings_refl (b : Bot) : same_settings b b.
Proof. repeat split. Qed.

Lemma same_settings_trans (b1 b2 b3 : Bot) :
  same_settings b1 b2 -> same_settings b2 b3 -> same_settings b1 b3.
Proof.
  unfold same_settings. intros H12 H23.
  destruct H12 as (?&?&?&?&?&?&?&?&?), H23 as (?&?&?&?&?&?&?&?&?).
  repeat split; congruence.
Qed.

Lemma run_same_settings (env : Env) (op : operation) (w : World) :
  same_settings (bot w) (bot (run env op w)).
Proof.
  destruct op as [|symbol|symbol sd amt ty|symbol sd entry amt| | |];
    cbn [run].
  - rewrite check_risk_management_eq. apply same_settings_roll_over.
  - trade_branches env symbol; apply same_settings_roll_over.
  - destruct sd; try apply same_settings_refl;
      (rewrite place_order_eq by discriminate; apply same_settings_refl).
  - destruct (set_stop_loss_take_profit_eq env symbol sd entry amt w)
      as [r ->]. apply same_settings_refl.
  - repeat split.
  - repeat split.
  - repeat split.
Qed.

Lemma run_daily_pnl (env : Env) (op : operation) (w : World) :
  daily_pnl (bot (run env op w)) = daily_pnl (bot w) \/
  daily_pnl (bot (run env op w)) = 0%Q.
Proof.
  assert (Hroll : daily_pnl (roll_over env (bot w)) = daily_pnl (bot w) \/
                  daily_pnl (roll_over env (bot w)) = 0%Q).
  { unfold roll_over. destruct (today env >? last_reset_date (bot w)); auto. }
  destruct op as [|symbol|symbol sd amt ty|symbol sd entry amt| | |];
    cbn [run].
  - rewrite check_risk_management_eq. exact Hroll.
  - trade_branches env symbol; exact Hroll.
  - left. destruct sd; try reflexivity;
      (rewrite place_order_eq by discriminate; reflexivity).
  - left. destruct (set_stop_loss_take_profit_eq env symbol sd entry amt w)
      as [r ->]. reflexivity.
  - now left.
  - now left.
  - now left.
Qed.

Lemma run_sent (env : Env) (op : operation) (w : World) :
  exists new, sent (run env op w) = (new ++ sent w)%list.
Proof.
  destruct op as [|symbol|symbol sd amt ty|symbol sd entry amt| | |];
    cbn [run].
  - rewrite check_risk_management_eq. now exists [].
  - trade_branches env symbol; try (now exists []).
    + unfold exit_log. destruct (create_order env (_ :: _) _).
      * now eexists [_; _; _].
      * now eexists [_; _].
    + now eexists [_].
  - destruct sd; try (now exists []);
      (rewrite place_order_eq by discriminate; now eexists [_]).
  - destruct (set_stop_loss_take_profit_eq env symbol sd entry amt w)
      as [r ->]. cbn [snd sent]. unfold exit_log.
    destruct (create_order env _ _); [now eexists [_; _] | now eexists [_]].
  - now exists [].
  - now exists [].
  - now exists [].
Qed.

Lemma insert_size_le {V} (m : gmap string V) (k : string) (v : V) :
  (size (<[k := v]> m) <= S (size m))%nat.
Proof. rewrite map_size_insert. destruct (m !! k); cbn; lia. Qed.

Lemma run_size (env : Env) (op : operation) (w : World) :
  Z.of_nat (size (positions (bot (run env op w))))
  <= Z.max (Z.of_nat (size (positions (bot w)))) (max_positions (bot w)).
Proof.
  destruct op as [|symbol|symbol sd amt ty|symbol sd entry amt| | |];
    cbn [run].
  - rewrite check_risk_management_eq. cbn. rewrite positions_roll_over. lia.
  - destruct (execute_trade_cases env symbol w)
      as [(_ & -> & _)
         | (sg & cf & pr & o & Hrisk & _ & _ & _ & _ & _ & _ & _ & _ & -> & _)];
      [lia|].
    assert (Hfree : Z.of_nat (size (positions (bot w))) < max_positions (bot w)).
    { destruct (Z_lt_le_dec (Z.of_nat (size (positions (bot w))))
                  (max_positions (bot w))) as [H | H]; [exact H|].
      rewrite (positions_full_denies env w H) in Hrisk. discriminate. }
    pose proof (insert_size_le (positions (bot w)) symbol
                  (mkPosition sg (trade_amount (bot w) / pr)%Q pr
                     (now_iso env) (o !! "id"))).
    lia.
  - destruct sd; try (cbn; lia);
      (rewrite place_order_eq by discriminate; cbn; lia).
  - destruct (set_stop_loss_take_profit_eq env symbol sd entry amt w)
      as [r ->]. cbn. lia.
  - cbn. lia.
  - cbn. lia.
  - cbn. lia.
Qed.

Lemma run_keeps_positions (env : Env) (op : operation) (w : World)
    (symbol : string) :
  is_Some (positions (bot w) !! symbol) ->
  is_Some (positions (bot (run env op w)) !! symbol).
Proof.
  intros Hsome.
  destruct (run_positions env op w)
    as [-> | (s & sg & pr & ts & oid & _ & _ & ->)]; [exact Hsome|].
  rewrite lookup_insert. case_decide; [eauto | exact Hsome].
Qed.

(** X18.  No history of operations changes the settings of the bot: the
    exchange name, sandbox flag, default symbol, trade amount, stop-loss
    and take-profit percentages, position limit, loss limit and minimum
    balance at the end are those of the start. *)
Theorem settings_never_change (steps : list (Env * operation)) (w : World) :
  same_settings (bot w) (bot (run_all steps w)).
Proof.
  revert w. induction steps as [|[env op] rest IH]; intros w; cbn [run_all].
  - apply same_settings_refl.
  - eapply same_settings_trans; [apply run_same_settings | apply IH].
Qed.

(** X19.  No operation books a profit or a loss: after any history the
    daily PnL is either the one the bot started with or 0 (after a daily
    reset). *)
Theorem daily_pnl_never_booked (steps : list (Env * operation)) (w : World) :
  daily_pnl (bot (run_all steps w)) = daily_pnl (bot w) \/
  daily_pnl (bot (run_all steps w)) = 0%Q.
Proof.
  revert w. induction steps as [|[env op] rest IH]; intros w; cbn [run_all].
  - now left.
  - destruct (IH (run env op w)) as [-> | ->]; [|now right].
    apply run_daily_pnl.
Qed.

(** X20.  The number of recorded positions never grows beyond the
    position limit: after any history it is at most the larger of the
    limit and the number the bot started with. *)
Theorem position_count_bounded (steps : list (Env * operation)) (w : World) :
  Z.of_nat (size (positions (bot (run_all steps w))))
  <= Z.max (Z.of_nat (size (positions (bot w)))) (max_positions (bot w)).
Proof.
  revert w. induction steps as [|[env op] rest IH]; intros w; cbn [run_all].
  - lia.
  - pose proof (IH (run env op w)) as Hrest.
    pose proof (run_size env op w) as Hstep.
    destruct (run_same_settings env op w) as (_&_&_&_&_&_& Hmax &_).
    rewrite Hmax in Hrest. lia.
Qed.

(** X21.  Nothing is ever taken back: after any history every instrument
    that had a recorded position still has one (no operation closes or
    removes a position), and the order log of the start is a suffix of the
    log at the end. *)
Theorem ledger_and_log_only_grow
    (steps : list (Env * operation)) (w : World) :
  (forall symbol, is_Some (positions (bot w) !! symbol) ->
                  is_Some (positions (bot (run_all steps w)) !! symbol)) /\
  exists new, sent (run_all steps w) = (new ++ sent w)%list.
Proof.
  revert w. induction steps as [|[env op] rest IH]; intros w; cbn [run_all].
  - split; [auto | now exists []].
  - destruct (IH (run env op w)) as [Hkeep [new Hlog]]. split.
    + intros symbol Hsome. apply Hkeep. now apply run_keeps_positions.
    + destruct (run_sent env op w) as [new' Hstep].
      exists (new ++ new')%list. rewrite Hlog, Hstep. apply app_assoc.
Qed.

(** X22.  Filling the last free slot closes the gate: when [execute_trade]
    returns an entry order for an instrument not yet in the ledger and the
    ledger was one short of [max_positions], the next [execute_trade], on
    any instrument and against any exchange answers, returns [None], sends
    no order and leaves the ledger as it is. *)
Theorem execute_trade_fills_last_slot
    (env1 env2 : Env) (symbol1 symbol2 : string) (w : World) (order : Order)
    (Hrun : fst (execute_trade env1 symbol1 w) = Ok (Some order))
    (Hnew : positions (bot w) !! symbol1 = None)
    (Hslot : Z.of_nat (size (positions (bot w))) + 1 = max_positions (bot w)) :
  let w1 := snd (execute_trade env1 symbol1 w) in
  let w2 := snd (execute_trade env2 symbol2 w1) in
  fst (execute_trade env2 symbol2 w1) = Ok None /\
  sent w2 = sent w1 /\
  positions (bot w2) = positions (bot w1).
Proof.
  intros w1 w2. subst w2.
  assert (Hfull : max_positions (bot w1)
                  <= Z.of_nat (size (positions (bot w1)))).
  { subst w1.
    destruct (run_same_settings env1 (op_execute_trade symbol1) w)
      as (_&_&_&_&_&_& Hmax &_).
    cbn [run] in Hmax. rewrite Hmax.
    destruct (execute_trade_cases env1 symbol1 w)
      as [(Hr & _)
         | (sg & cf & pr & o & _ & _ & _ & _ & _ & _ & _ & _ & _ & -> & _)];
      [congruence|].
    rewrite map_size_insert_None by exact Hnew. lia. }
  rewrite (execute_trade_denied env2 symbol2 w1
             (positions_full_denies env2 w1 Hfull)).
  cbn [fst snd with_bot bot sent]. now rewrite positions_roll_over.
Qed.

Lemma execute_trade_fills_last_slot_witness :
  fst (execute_trade example_env "ETH/USDT"
         (snd (execute_trade example_env "BTC/USDT"
                 (mkWorld (mkBot "binance" true "BTC/USDT" 10 2 5 1 100 50
                             false ∅ 0 100) []))))
  = Ok None.
Proof.
  apply (execute_trade_fills_last_slot example_env example_env "BTC/USDT"
           "ETH/USDT" _ {[ "id" := "42" ]}).
  - vm_compute. reflexivity.
  - vm_compute. reflexivity.
  - vm_compute. reflexivity.
Defined.

(** ** Portfolio summary *)

Lemma add_asset_effect (env : Env) (t : Q) (currency : string)
    (info : gmap string pyval) :
  add_asset env t currency info =
  match asset_effect env currency info with
  | Ok None => Ok t
  | Ok (Some v) => Ok (t + v)%Q
  | Raise e => Raise e
  end.
Proof.
  unfold add_asset, asset_effect, quoted_price, dict_get, py_getitem.
  destruct (String.eqb currency "info"); [reflexivity|].
  destruct (info !! "total") as [[|total]|]; cbn [py_gt rbind];
    try reflexivity.
  destruct (Qltb 0 total); [|reflexivity].
  destruct (String.eqb currency "USDT"); [reflexivity|].
  cbn [rbind py_mul].
  destruct (get_ticker env (currency ++ "/USDT") !! "last") as [[|price]|];
    reflexivity.
Qed.

Lemma asset_effect_raises (env : Env) (currency : string)
    (info : gmap string pyval) :
  (exists e, asset_effect env currency info = Raise e) <->
  currency <> "info" /\ info !! "total" = Some PyNone.
Proof.
  unfold asset_effect, dict_get.
  destruct (String.eqb_spec currency "info") as [-> | Hne].
  - split; [intros [e H]; discriminate | intros [H _]; congruence].
  - destruct (info !! "total") as [[|total]|].
    + split; [auto | eauto].
    + split; [|intros [_ H]; discriminate].
      intros [e H]. destruct (Qltb 0 total); [|discriminate].
      destruct (String.eqb currency "USDT"); [discriminate|].
      destruct (quoted_price env (currency ++ "/USDT")); discriminate.
    + split; [|intros [_ H]; discriminate].
      intros [e H]. cbn in H. discriminate.
Qed.

Lemma sum_assets_raises (env : Env)
    (items : list (string * gmap string pyval)) (t : Q) :
  (exists e, sum_assets env items t = Raise e) <->
  exists currency info,
    (currency, info) ∈ items /\
    currency <> "info" /\ info !! "total" = Some PyNone.
Proof.
  revert t. induction items as [|[c info] rest IH]; intros t.
  - split; [intros [e H]; discriminate|].
    intros (c & info & Hin & _). now apply elem_of_nil in Hin.
  - cbn [sum_assets]. rewrite add_asset_effect.
    destruct (asset_effect env c info) as [[v|]|e] eqn:E; cbn [rbind].
    + rewrite IH. split.
      * intros (c' & i' & Hin & H). exists c', i'. split; [|exact H].
        now apply elem_of_cons; right.
      * intros (c' & i' & Hin & H). apply elem_of_cons in Hin as [Heq | Hin].
        -- inversion Heq; subst c' i'.
           destruct (proj2 (asset_effect_raises env c info) H) as [e He].
           congruence.
        -- eauto.
    + rewrite IH. split.
      * intros (c' & i' & Hin & H). exists c', i'. split; [|exact H].
        now apply elem_of_cons; right.
      * intros (c' & i' & Hin & H). apply elem_of_cons in Hin as [Heq | Hin].
        -- inversion Heq; subst c' i'.
           destruct (proj2 (asset_effect_raises env c info) H) as [e He].
           congruence.
        -- eauto.
    + split; [|eauto]. intros _. exists c, info.
      split; [apply list_elem_of_here|].
      apply (asset_effect_raises env c info). eauto.
Qed.

(** X23.  A failed balance fetch does not make the summary fail: the
    method returns a summary with total value 0, an empty balance and the
    recorded positions, not the empty dictionary. *)
Theorem get_portfolio_summary_fetch_failure
    (env : Env) (self : Bot) (e : exn)
    (Hfetch : fetch_balance env = Raise e) :
  get_portfolio_summary env self
  = Some (mkPortfolio 0 (positions self) ∅).
Proof.
  unfold get_portfolio_summary, get_balance. rewrite Hfetch.
  cbn [rcatch]. now rewrite map_to_list_empty.
Qed.

Lemma get_portfolio_summary_fetch_failure_witness :
  get_portfolio_summary balance_failure_env example_bot
  = Some (mkPortfolio 0 ∅ ∅).
Proof.
  apply (get_portfolio_summary_fetch_failure balance_failure_env example_bot
           ExchangeError).
  reflexivity.
Defined.

(** X24.  A total of [None] in any balance entry other than ['info']
    makes the summary the empty dictionary: the [TypeError] of the
    comparison with 0 reaches the outer [except].  Whenever a summary is
    returned, it carries the recorded positions and the balance as
    fetched. *)
Theorem get_portfolio_summary_failure (env : Env) (self : Bot) :
  ((exists currency info,
      get_balance env !! currency = Some info /\
      currency <> "info" /\ info !! "total" = Some PyNone) ->
   get_portfolio_summary env self = None) /\
  (forall p, get_portfolio_summary env self = Some p ->
     portfolio_positions p = positions self /\
     portfolio_balance p = get_balance env).
Proof.
  unfold get_portfolio_summary. cbn zeta.
  pose proof (sum_assets_raises env (map_to_list (get_balance env)) 0%Q)
    as Hraise.
  destruct (sum_assets env (map_to_list (get_balance env)) 0%Q) as [t|e];
    cbn [rbind rcatch].
  - split.
    + intros (c & info & Hin & H). exfalso.
      assert (exists e, Ok t = Raise e) as [e He]; [|discriminate].
      apply Hraise. exists c, info. split; [|exact H].
      now apply elem_of_map_to_list.
    + intros p Hp. inversion Hp; subst p. split; reflexivity.
  - split; [reflexivity | discriminate].
Qed.

Lemma sum_assets_nonneg (env : Env)
    (items : list (string * gmap string pyval)) (t r : Q) :
  quotes_nonnegative env -> (0 <= t)%Q ->
  sum_assets env items t = Ok r -> (0 <= r)%Q.
Proof.
  intros Hq. revert t. induction items as [|[c info] rest IH]; intros t Ht.
  - cbn. intros H. inversion H; subst r. exact Ht.
  - cbn [sum_assets]. rewrite add_asset_effect.
    destruct (asset_effect env c info) as [[v|]|e] eqn:E; cbn [rbind];
      [| now apply IH | discriminate].
    apply IH. unfold asset_effect in E.
    destruct (String.eqb c "info"); [discriminate|].
    destruct (dict_get info "total" (PyNum 0%Q)) as [|total]; [discriminate|].
    destruct (Qltb 0 total) eqn:Hpos; [|discriminate].
    apply Qltb_lt in Hpos.
    destruct (String.eqb c "USDT").
    + inversion E; subst v. lra.
    + destruct (quoted_price env (c ++ "/USDT")) as [|price] eqn:Hprice;
        [discriminate|].
      inversion E; subst v. specialize (Hq _ _ Hprice).
      assert (0 <= total * price)%Q
        by (apply Qmult_le_0_compat; [lra | exact Hq]).
      lra.
Qed.

(** X25.  When the exchange never quotes a negative last price, the total
    value of the summary is never negative. *)
Theorem get_portfolio_summary_nonnegative
    (env : Env) (self : Bot) (p : Portfolio)
    (Hquotes : quotes_nonnegative env)
    (Hsummary : get_portfolio_summary env self = Some p) :
  (0 <= total_value p)%Q.
Proof.
  unfold get_portfolio_summary in Hsummary. cbn zeta in Hsummary.
  destruct (sum_assets env (map_to_list (get_balance env)) 0%Q) as [t|e] eqn:E;
    cbn [rbind rcatch] in Hsummary; [|discriminate].
  inversion Hsummary; subst p. cbn [total_value].
  apply (sum_assets_nonneg env (map_to_list (get_balance env)) 0 t Hquotes);
    [lra | exact E].
Qed.

Lemma get_portfolio_summary_nonnegative_witness :
  exists p, get_portfolio_summary example_env example_bot = Some p /\
            (0 <= total_value p)%Q.
Proof.
  assert (Hq : quotes_nonnegative example_env).
  { intros symbol q H. vm_compute in H. inversion H. discriminate. }
  eexists. split; [vm_compute; reflexivity|].
  apply (get_portfolio_summary_nonnegative example_env example_bot _ Hq).
  vm_compute. reflexivity.
Defined.

(** ** The scheduled check *)

(** X27.  The scheduled check never trades.  With trading stopped it does
    nothing at all.  With trading started it runs [execute_trade] inside the
    event loop of [asyncio.run], where the strategy's own [asyncio.run]
    raises: no order is sent, no position is stored and no notification is
    handed over; the daily reset of the risk gate is its only effect.  It
    raises only when a loop is already running in the calling thread. *)
Theorem periodic_trading_check_never_trades
    (env : Env) (chat_id : option string) (s : System) :
  let r := fst (_periodic_trading_check env chat_id s) in
  let s' := snd (_periodic_trading_check env chat_id s) in
  sent (world s') = sent (world s) /\
  positions (bot (world s')) = positions (bot (world s)) /\
  notices s' = notices s /\
  (is_trading (bot (world s)) = false -> r = Ok tt /\ s' = s) /\
  (is_trading (bot (world s)) = true -> loop_running env = false ->
   r = Ok tt /\ world s' = with_bot (roll_over env) (world s)) /\
  (r <> Ok tt -> loop_running env = true).
Proof.
  intros r s'. subst r s'. unfold _periodic_trading_check.
  destruct (is_trading (bot (world s))) eqn:Htrading; cbn [negb].
  - unfold asyncio_run_method, asyncio_run_notice.
    destruct (loop_running env) eqn:Hloop; cbn [fst snd world notices].
    + repeat split; try discriminate; auto.
    + rewrite (execute_trade_loop_running (inside_loop env) _ (world s) eq_refl).
      cbn [order_truthy fst snd world notices with_bot bot sent].
      rewrite positions_roll_over.
      repeat split; try discriminate; try (intros H; now contradiction H).
  - cbn [fst snd]. repeat split; try discriminate;
      try (intros H; now contradiction H).
Qed.

(** ** Configuration *)

Lemma prefix_app (p s : string) :
  String.prefix p s = true <-> exists rest, s = p ++ rest.
Proof.
  revert s. induction p as [|a p IH]; intros s.
  - split; [intros _; now exists s | intros _; now destruct s].
  - destruct s as [|b s]; cbn.
    + split; [discriminate | intros [rest H]; discriminate].
    + destruct (Ascii.ascii_dec a b) as [-> | Hne].
      * rewrite IH. split; intros [rest H]; exists rest.
        -- now subst s.
        -- now inversion H.
      * split; [discriminate|]. intros [rest H]. inversion H. congruence.
Qed.

Lemma str_contains_app (c : ascii) (s : string) :
  str_contains c s = true <-> exists pre post, s = pre ++ String c post.
Proof.
  induction s as [|a s IH]; cbn [str_contains].
  - split; [discriminate|]. intros (pre & post & H).
    destruct pre; discriminate.
  - destruct (Ascii.eqb_spec a c) as [-> | Hne].
    + split; [|reflexivity]. intros _. now exists "", s.
    + rewrite IH. split.
      * intros (pre & post & ->). now exists (String a pre), post.
      * intros (pre & post & H). destruct pre as [|b pre]; cbn in H.
        -- inversion H. congruence.
        -- inversion H. eauto.
Qed.

(** X28.  [_get_env_var]: an optional variable never raises and is the
    plain [os.getenv]; a required one either raises [ValueError] or gives a
    non-empty string; a variable set to the empty string is not replaced by
    the default, so it makes a required lookup fail even when a default is
    given; and a non-empty default satisfies a required lookup of an unset
    variable. *)
Theorem get_env_var_required
    (environ : Environ) (key : string) (default : option string) :
  _get_env_var environ key false default
  = Ok (os_getenv environ key default) /\
  (forall v, _get_env_var environ key true default = Ok v ->
             exists s, v = Some s /\ s <> "") /\
  (environ !! key = Some "" ->
   _get_env_var environ key true default = Raise ValueError) /\
  (forall d, environ !! key = None -> default = Some d -> d <> "" ->
             _get_env_var environ key true default = Ok (Some d)).
Proof.
  unfold _get_env_var, os_getenv. split; [reflexivity|]. split; [|split].
  - intros v. cbn [andb].
    destruct (environ !! key) as [value|]; [|destruct default as [value|]];
      cbn [str_truthy]; try discriminate;
      (destruct (String.eqb_spec value "") as [-> | Hne]; cbn [negb];
       [discriminate | intros H; inversion H; eauto]).
  - intros ->. reflexivity.
  - intros d -> -> Hd. cbn [andb str_truthy].
    destruct (String.eqb_spec d "") as [-> | Hne]; [congruence | reflexivity].
Qed.

Lemma get_env_var_required_witness :
  _get_env_var {[ "TELEGRAM_BOT_TOKEN" := "" ]} "TELEGRAM_BOT_TOKEN" true
    (Some "123:abc") = Raise ValueError /\
  _get_env_var ∅ "TELEGRAM_BOT_TOKEN" true (Some "123:abc")
  = Ok (Some "123:abc").
Proof.
  split.
  - destruct (get_env_var_required {[ "TELEGRAM_BOT_TOKEN" := "" ]}
                "TELEGRAM_BOT_TOKEN" (Some "123:abc")) as (_ & _ & Hempty & _).
    apply Hempty. vm_compute. reflexivity.
  - destruct (get_env_var_required ∅ "TELEGRAM_BOT_TOKEN" (Some "123:abc"))
      as (_ & _ & _ & Hdefault).
    apply (Hdefault "123:abc"); [vm_compute; reflexivity | reflexivity |].
    discriminate.
Defined.

(** X29.  [validate] accepts a configuration exactly when the API URL
    starts with [http://] or [https://] and the bot token contains a
    colon; in every other case it raises [ValueError]. *)
Theorem validate_accepts (self : Config) :
  (validate self = Ok tt <->
   (exists rest, somnia_api_url self = Some ("http://" ++ rest) \/
                 somnia_api_url self = Some ("https://" ++ rest)) /\
   (exists pre post, telegram_bot_token self = Some (pre ++ ":" ++ post))) /\
  (validate self = Ok tt \/ validate self = Raise ValueError).
Proof.
  split; [|unfold validate; destruct (is_nil _); auto].
  unfold validate, validation_errors.
  destruct (somnia_api_url self) as [url|]; [|split;
    [discriminate | intros [[rest [H | H]] _]; discriminate]].
  destruct (telegram_bot_token self) as [token|].
  2:{ split; [|intros [_ (pre & post & H)]; discriminate].
      destruct (String.eqb url ""); [discriminate|].
      destruct (_ || _); discriminate. }
  destruct (String.eqb_spec url "") as [-> | Hurl].
  { split; [discriminate|]. intros [[rest [H | H]] _]; discriminate. }
  destruct (String.eqb_spec token "") as [-> | Htoken].
  { split.
    - destruct (_ || _); discriminate.
    - intros [_ (pre & post & H)]. destruct pre; discriminate. }
  destruct (String.prefix "http://" url || String.prefix "https://" url)
    eqn:Hprefix.
  - destruct (str_contains ":" token) eqn:Hcolon; cbn.
    + split; [intros _|reflexivity]. split.
      * apply orb_true_iff in Hprefix as [H | H];
          apply prefix_app in H as [rest ->]; exists rest; auto.
      * apply str_contains_app in Hcolon as (pre & post & ->). eauto.
    + split; [discriminate|]. intros [_ (pre & post & H)].
      assert (str_contains ":" token = true)
        by (apply str_contains_app; inversion H; eauto).
      congruence.
  - split; [destruct (str_contains ":" token); discriminate|].
    intros [[rest H] _]. apply orb_false_iff in Hprefix as [H1 H2].
    destruct H as [H | H]; inversion H; subst url.
    + assert (String.prefix "http://" ("http://" ++ rest) = true)
        by (apply prefix_app; eauto). congruence.
    + assert (String.prefix "https://" ("https://" ++ rest) = true)
        by (apply prefix_app; eauto). congruence.
Qed.

Lemma validate_accepts_witness :
  validate (mkConfig (Some "https://api.somnia.network") (Some "123:abc")
              false "INFO") = Ok tt.
Proof.
  apply (validate_accepts (mkConfig (Some "https://api.somnia.network")
                             (Some "123:abc") false "INFO")).
  split.
  - exists "api.somnia.network". right. reflexivity.
  - exists "123", "abc". reflexivity.
Defined.

(** X30.  Values that passed a required [_get_env_var] are never reported
    as missing by [validate]: the only errors left are the malformed URL and
    the malformed token. *)
Theorem validate_after_required_lookup
    (environ : Environ) (key1 key2 : string) (default1 default2 : option string)
    (url token : option string) (dbg : bool) (level : string)
    (Hurl : _get_env_var environ key1 true default1 = Ok url)
    (Htoken : _get_env_var environ key2 true default2 = Ok token) :
  forall e, e ∈ validation_errors (mkConfig url token dbg level) ->
    e = "SOMNIA_API_URL must be a valid URL" \/
    e = "TELEGRAM_BOT_TOKEN appears to be invalid format".
Proof.
  assert (Hnonempty : forall (key : string) (default v : option string),
            _get_env_var environ key true default = Ok v ->
            exists s, v = Some s /\ String.eqb s "" = false).
  { intros key default v. unfold _get_env_var. cbn [andb].
    destruct (os_getenv environ key default) as [s|]; cbn [str_truthy];
      [|discriminate].
    destruct (String.eqb s "") eqn:E; cbn [negb]; [discriminate|].
    intros H. inversion H. eauto. }
  destruct (Hnonempty _ _ _ Hurl) as (u & -> & Hu).
  destruct (Hnonempty _ _ _ Htoken) as (t & -> & Ht).
  intros e. unfold validation_errors.
  cbn [somnia_api_url telegram_bot_token]. rewrite Hu, Ht.
  destruct (_ || _), (str_contains ":" t); cbn; intros He;
    repeat (apply elem_of_cons in He as [-> | He]; [auto|]);
    now apply elem_of_nil in He.
Qed.

Lemma validate_after_required_lookup_witness :
  exists e,
    e ∈ validation_errors (mkConfig (Some "ftp://x") (Some "123:abc")
                             false "INFO") /\
    (e = "SOMNIA_API_URL must be a valid URL" \/
     e = "TELEGRAM_BOT_TOKEN appears to be invalid format").
Proof.
  assert (Hin : "SOMNIA_API_URL must be a valid URL"
                ∈ validation_errors (mkConfig (Some "ftp://x")
                                       (Some "123:abc") false "INFO"))
    by (vm_compute; apply list_elem_of_here).
  eexists. split; [exact Hin|].
  apply (validate_after_required_lookup
           {[ "SOMNIA_API_URL" := "ftp://x";
              "TELEGRAM_BOT_TOKEN" := "123:abc" ]}
           "SOMNIA_API_URL" "TELEGRAM_BOT_TOKEN" None None
           (Some "ftp://x") (Some "123:abc") false "INFO").
  - vm_compute. reflexivity.
  - vm_compute. reflexivity.
  - exact Hin.
Defined.

(** ** The properties above at the example inputs *)

Lemma simple_strategy_confidence_at_most_1_witness :
  snd (simple_strategy no_history_env "BTC/USDT") = 0%Q.
Proof.
  apply (simple_strategy_confidence_at_most_1 no_history_env "BTC/USDT").
  vm_compute. reflexivity.
Defined.


Lemma execute_trade_orders_need_signal_witness :
  fst (check_risk_management example_env example_world) = Ok true /\
  fst (simple_strategy example_env "BTC/USDT") <> hold.
Proof.
  destruct (execute_trade_orders_need_signal example_env "BTC/USDT"
              example_world) as [_ Hneed].
  destruct Hneed as (Hrisk & Hsignal & _).
  - vm_compute. discriminate.
  - split; assumption.
Defined.

Lemma ledger_and_log_only_grow_witness :
  is_Some (positions
             (bot (run_all [(example_env, op_execute_trade "ETH/USDT");
                            (example_env, op_stop_trading)]
                     short_position_world)) !! "BTC/USDT").
Proof.
  apply (ledger_and_log_only_grow
           [(example_env, op_execute_trade "ETH/USDT");
            (example_env, op_stop_trading)] short_position_world).
  exists short_position. vm_compute. reflexivity.
Defined.

Lemma get_portfolio_summary_failure_witness :
  get_portfolio_summary none_total_env example_bot = None.
Proof.
  apply (get_portfolio_summary_failure none_total_env example_bot).
  exists "ETH", {[ "total" := PyNone ]}.
  split; [vm_compute; reflexivity|]. split; [discriminate|].
  vm_compute. reflexivity.
Defined.

Lemma periodic_trading_check_never_trades_witness :
  snd (_periodic_trading_check example_env (Some "42")
         (mkSystem example_world [])) = mkSystem example_world [] /\
  fst (_periodic_trading_check example_env (Some "42") started_system)
  = Ok tt.
Proof.
  split.
  - destruct (periodic_trading_check_never_trades example_env (Some "42")
                (mkSystem example_world [])) as (_ & _ & _ & Hstopped & _).
    apply Hstopped. reflexivity.
  - destruct (periodic_trading_check_never_trades example_env (Some "42")
                started_system) as (_ & _ & _ & _ & Hstarted & _).
    apply Hstarted; reflexivity.
Defined.
